(** * Running-average trackers of [utils.py]

    A shallow embedding of [AverageTracker] and [AverageTrackerGroup].

    - A Python [float] is an IEEE 754 binary64 number: Rocq's primitive
      [float], whose operations are specified by [FloatAxioms].
    - A Python [int] is a [Z]; mixed [float]/[int] arithmetic first converts
      the [int] with [float_of_int], which raises [OverflowError] when the
      integer is out of the range of a [float].
    - A method that assigns to [self] is a computation in the state and
      exception monad [M]: the state that it returns is the object as the
      assignments executed before a [raise] left it.
    - The [OrderedDict] of the group is an association list in insertion
      order, with at most one entry per key. *)

From Stdlib Require Import ZArith NArith List String Ascii Bool Floats Lia DecimalString.
Import ListNotations.

Set Warnings "-inexact-float".

Local Open Scope Z_scope.

(** ** Exceptions and the state/exception monad *)

Inductive exn : Type :=
| ZeroDivisionError
| OverflowError
| TypeError
| KeyError (key : string).

Inductive outcome (A : Type) : Type :=
| Return (a : A)
| Raise (e : exn).
Arguments Return {A} a.
Arguments Raise {A} e.

(** A computation over a mutable object of type [S]. *)
Definition M (S A : Type) : Type := S -> S * outcome A.

Definition ret {S A} (a : A) : M S A := fun s => (s, Return a).

Definition bind {S A B} (c : M S A) (k : A -> M S B) : M S B :=
  fun s =>
    match c s with
    | (s', Return a) => k a s'
    | (s', Raise e) => (s', Raise e)
    end.

Definition get {S} : M S S := fun s => (s, Return s).
Definition modify {S} (f : S -> S) : M S unit := fun s => (f s, Return tt).
Definition lift {S A} (o : outcome A) : M S A := fun s => (s, o).

Declare Scope py_scope.
Delimit Scope py_scope with py.
Notation "x <- c ;; k" := (bind c (fun x => k))
  (at level 100, c at next level, right associativity) : py_scope.
Notation "c ;; k" := (bind c (fun _ => k))
  (at level 100, right associativity) : py_scope.

(** State of the object after the call, and what the call returned. *)
Definition state_of {S A} (r : S * outcome A) : S := fst r.
Definition result_of {S A} (r : S * outcome A) : outcome A := snd r.

(** ** Python numbers *)

(** The binary64 number nearest to the integer [n], ties to even; an
    infinity when [n] is beyond the largest finite one. *)
Definition nearest_float (n : Z) : float :=
  SF2Prim (binary_normalize prec emax n 0 false).

(** [float(n)] for an [int] [n], as the mixed operators [float * int] and
    [float + int] compute it: [OverflowError] when [n] is out of range. *)
Definition float_of_int (n : Z) : outcome float :=
  let f := nearest_float n in
  if is_infinity f then Raise OverflowError else Return f.

(** [x / y] on floats raises when the divisor is a zero of either sign. *)
Definition float_truediv (x y : float) : outcome float :=
  if is_zero y then Raise ZeroDivisionError else Return (x / y)%float.

(** *** [format(x, '.4f')] *)

Definition string_of_N (n : N) : string := NilZero.string_of_uint (N.to_uint n).

(** [s] left-padded with zeros to [width] characters. *)
Fixpoint zeros (k : nat) : string :=
  match k with
  | O => EmptyString
  | S k' => String "0" (zeros k')
  end.

Definition pad_left (width : nat) (s : string) : string :=
  (zeros (width - String.length s) ++ s)%string.

(** [round_half_even num den] is the integer nearest to [num / den], ties
    going to the even one. *)
Definition round_half_even (num den : N) : N :=
  let q := N.div num den in
  let r := N.modulo num den in
  match N.compare (2 * r) den with
  | Lt => q
  | Gt => N.succ q
  | Eq => if N.even q then q else N.succ q
  end.

(** The magnitude [m * 2^e] scaled by [10^4] and rounded to an integer. *)
Definition scaled4 (m : positive) (e : Z) : N :=
  match e with
  | Z0 => Npos m * 10000
  | Zpos p => Npos m * 10000 * 2 ^ Npos p
  | Zneg p => round_half_even (Npos m * 10000) (2 ^ Npos p)
  end.

Definition fixed4 (sign : bool) (scaled : N) : string :=
  ((if sign then "-" else "") ++
   string_of_N (N.div scaled 10000) ++ "." ++
   pad_left 4 (string_of_N (N.modulo scaled 10000)))%string.

(** [format(x, '.4f')]: the exact value of [x], correctly rounded to four
    digits after the point. *)
Definition format_4f (x : float) : string :=
  match Prim2SF x with
  | S754_nan => "nan"
  | S754_infinity s => if s then "-inf" else "inf"
  | S754_zero s => fixed4 s 0
  | S754_finite s m e => fixed4 s (scaled4 m e)
  end%string.

(** ** [class AverageTracker] *)

Module AverageTracker.

Record t : Type := mk {
  name : string;
  val : float;
  sum : float;
  count : float;
  avg : float
}.

Definition set_val (x : float) (self : t) : t :=
  mk (name self) x (sum self) (count self) (avg self).
Definition set_sum (x : float) (self : t) : t :=
  mk (name self) (val self) x (count self) (avg self).
Definition set_count (x : float) (self : t) : t :=
  mk (name self) (val self) (sum self) x (avg self).
Definition set_avg (x : float) (self : t) : t :=
  mk (name self) (val self) (sum self) (count self) x.

(** [reset]: four assignments of the literal [0.]; [name] is untouched. *)
Definition reset (self : t) : t :=
  set_avg 0 (set_count 0 (set_sum 0 (set_val 0 self))).

(** [__init__]: [self.name = name], then [reset] gives the four numeric
    attributes their first values. *)
Definition __init__ (name : string) : t :=
  reset (mk name 0 0 0 0).

Definition item (self : t) : float := avg self.

Definition __call__ (self : t) : float := item self.

(** The format string ['{name} {val:.4f} ({avg:.4f})'] filled in from the
    attributes of [self]. *)
Definition __str__ (self : t) : string :=
  (name self ++ " " ++ format_4f (val self) ++
   " (" ++ format_4f (avg self) ++ ")")%string.

(** [update(self, value: float, n: int = 1)], statement by statement. *)
Definition update (value : float) (n : Z) : M t unit :=
  (modify (set_val value) ;;
   self <- get ;;
   n1 <- lift (float_of_int n) ;;
   modify (set_sum (sum self + value * n1)%float) ;;
   self <- get ;;
   n2 <- lift (float_of_int n) ;;
   modify (set_count (count self + n2)%float) ;;
   self <- get ;;
   q <- lift (float_truediv (sum self) (count self)) ;;
   modify (set_avg q))%py.

(** The default of the parameter [n]. *)
Definition default_n : Z := 1.

End AverageTracker.

(** ** [OrderedDict] with [str] keys *)

Section OrderedDict.

Context {V : Type}.

Definition odict : Type := list (string * V).

(** [key in d] *)
Fixpoint contains (key : string) (d : odict) : bool :=
  match d with
  | [] => false
  | (k, _) :: d' => if String.eqb k key then true else contains key d'
  end.

(** [d[key]] *)
Fixpoint getitem (key : string) (d : odict) : outcome V :=
  match d with
  | [] => Raise (KeyError key)
  | (k, v) :: d' => if String.eqb k key then Return v else getitem key d'
  end.

(** [d[key] = v]: a present key keeps its position, a new one goes last. *)
Fixpoint setitem (key : string) (v : V) (d : odict) : odict :=
  match d with
  | [] => [(key, v)]
  | (k, w) :: d' =>
    if String.eqb k key then (k, v) :: d' else (k, w) :: setitem key v d'
  end.

Definition keys (d : odict) : list string := map fst d.

End OrderedDict.
Arguments odict V : clear implicits.

(** ** [class AverageTrackerGroup] *)

(** The contents of a tuple that is unpacked into the positional arguments
    [(value: float, n: int)] of [AverageTracker.update]. *)
Inductive tuple : Type :=
| Tuple0
| Tuple1 (value : float)
| Tuple2 (value : float) (n : Z)
| TupleN (value : float) (n : Z) (third : Z) (rest : list Z).

(** A value of the [data] dictionary passed to the group's [update]: a plain
    number, or a tuple, which is an [Iterable]. *)
Inductive datum : Type :=
| Scalar (value : float)
| Iterable (args : tuple).

Module AverageTrackerGroup.

Record t : Type := mk { _storage : odict AverageTracker.t }.

(** [reset]: [_storage] is bound to a new, empty [OrderedDict]. *)
Definition reset (self : t) : t := mk [].

Definition __init__ : t := reset (mk []).

(** [self._storage[name].m(...)]: the method [m] runs on the tracker stored
    under [name] and mutates that object, so the dictionary shows the
    tracker as the method left it, also when the method raised. *)
Definition on_tracker {A} (name : string) (m : M AverageTracker.t A) : M t A :=
  fun self =>
    match getitem name (_storage self) with
    | Raise e => (self, Raise e)
    | Return tracker =>
      let (tracker', r) := m tracker in
      (mk (setitem name tracker' (_storage self)), r)
    end.

(** [tracker.update( *value)] for an iterable [value]: a call with too few
    or too many positional arguments raises before the body runs. *)
Definition update_unpacked (args : tuple) : M AverageTracker.t unit :=
  match args with
  | Tuple0 => lift (Raise TypeError)
  | Tuple1 v => AverageTracker.update v AverageTracker.default_n
  | Tuple2 v n => AverageTracker.update v n
  | TupleN _ _ _ _ => lift (Raise TypeError)
  end.

(** The body of the loop of [update], for one [(name, value)] of [data]. *)
Definition update_entry (name : string) (value : datum) : M t unit :=
  (self <- get ;;
   (if contains name (_storage self) then ret tt
    else modify (fun self =>
           mk (setitem name (AverageTracker.__init__ name) (_storage self)))) ;;
   match value with
   | Iterable args => on_tracker name (update_unpacked args)
   | Scalar v =>
     on_tracker name (AverageTracker.update v AverageTracker.default_n)
   end)%py.

(** [for name, value in data.items(): ...] *)
Fixpoint update (data : odict datum) : M t unit :=
  match data with
  | [] => ret tt
  | (name, value) :: data' => (update_entry name value ;; update data')%py
  end.

Definition __getitem__ (item : string) : M t float :=
  (self <- get ;;
   tracker <- lift (getitem item (_storage self)) ;;
   ret (AverageTracker.item tracker))%py.

(** The method [__getattr__] itself.  It is a hook: an attribute read
    [group.item] reaches it only when the ordinary lookup, below, has not
    found [item]. *)
Definition __getattr__ (item : string) : M t float :=
  (self <- get ;;
   tracker <- lift (getitem item (_storage self)) ;;
   ret (AverageTracker.item tracker))%py.

(** What an attribute read on a group evaluates to. *)
Inductive attribute : Type :=
| InstanceStorage (d : odict AverageTracker.t)  (* [self._storage] *)
| BoundMethod (name : string)   (* a function of the class body, bound *)
| FromObject (name : string)    (* an attribute that comes with [object] *)
| Average (x : float).          (* what [__getattr__] returned *)

(** The names that the class body defines. *)
Definition class_body : list string :=
  ["__init__"; "__getattr__"; "__getitem__"; "__repr__"; "__str__";
   "update"; "reset"; "items"]%string.

(** The ordinary lookup of [group.item]: the attribute [_storage] of the
    instance, then the class body, then [inherited], the names that every
    instance has from [object] and from the class machinery (they depend
    on the version of Python and are a parameter). *)
Definition ordinary_lookup (inherited : list string) (item : string) (self : t)
  : option attribute :=
  if String.eqb item "_storage" then Some (InstanceStorage (_storage self))
  else if existsb (String.eqb item) class_body then Some (BoundMethod item)
  else if existsb (String.eqb item) inherited then Some (FromObject item)
  else None.

(** The attribute read [group.item]. *)
Definition getattr (inherited : list string) (item : string) : M t attribute :=
  (self <- get ;;
   match ordinary_lookup inherited item self with
   | Some a => ret a
   | None => x <- __getattr__ item ;; ret (Average x)
   end)%py.

Definition __str__ (self : t) : string :=
  String.concat " " (map (fun kv => AverageTracker.__str__ (snd kv)) (_storage self)).

Definition __repr__ (self : t) : string :=
  ("Metric Group: " ++
   String.concat " " (map (fun kv => AverageTracker.__str__ (snd kv)) (_storage self)))%string.

(** [items] is a generator function: a call returns a generator whose
    body has not started.  The first [next] evaluates
    [self._storage.items()] on the dictionary that [_storage] is bound to
    at that moment and starts to iterate it; the iterator remembers the
    size of the dictionary and how many entries it has passed.

    [Running detached size pos]: [detached] is [None] while the iterated
    dictionary is still the one in [_storage], and is that dictionary, as
    it was left, once a [reset] has bound [_storage] to a new one (see
    [detach]). *)
Inductive generator : Type :=
| Created
| Running (detached : option (odict AverageTracker.t)) (size pos : nat)
| Finished.

(** What [next(gen)] gives: a yielded pair, [StopIteration], or the
    [RuntimeError] of an [OrderedDict] whose size changed under iteration. *)
Inductive step : Type :=
| Yield (kv : string * float)
| StopIteration
| RuntimeError.

Definition items (self : t) : generator := Created.

(** One step of the iterator: past the last entry it stops, without
    looking at the dictionary; else it refuses a dictionary that has
    changed size; else it yields [(key, val.item())] for the entry at its
    position, the tracker being as it is now. *)
Definition advance (self : t) (detached : option (odict AverageTracker.t))
    (size pos : nat) : step * generator :=
  let dict := match detached with Some d => d | None => _storage self end in
  if Nat.leb size pos then (StopIteration, Finished)
  else if negb (Nat.eqb (List.length dict) size) then (RuntimeError, Finished)
  else
    match nth_error dict pos with
    | Some (key, val) =>
      (Yield (key, AverageTracker.item val), Running detached size (S pos))
    | None => (StopIteration, Finished)
    end.

(** [next(gen)], [self] being the group that [gen] comes from. *)
Definition next (self : t) (g : generator) : step * generator :=
  match g with
  | Created => advance self None (List.length (_storage self)) 0
  | Running detached size pos => advance self detached size pos
  | Finished => (StopIteration, Finished)
  end.

(** What [self.reset()] means for a generator of [self]: one that is
    running keeps the dictionary that it iterates, which [_storage] is no
    longer bound to and which nothing changes from then on. *)
Definition detach (self : t) (g : generator) : generator :=
  match g with
  | Running None size pos => Running (Some (_storage self)) size pos
  | _ => g
  end.

(** Iterating a generator to its end, e.g. [list(group.items())], the
    group not being touched in between: the pairs yielded and the step
    that ended the iteration. *)
Fixpoint drain (fuel : nat) (self : t) (g : generator)
  : option (list (string * float) * step) :=
  match next self g with
  | (Yield kv, g') =>
    match fuel with
    | O => None
    | S fuel' =>
      match drain fuel' self g' with
      | Some (rest, last) => Some (kv :: rest, last)
      | None => None
      end
    end
  | (last, _) => Some ([], last)
  end.

End AverageTrackerGroup.

(** ** Sequences of calls *)

(** The tracker after the calls [update(v, n)] for [(v, n)] in [calls] were
    made on it in order; a call that raises leaves the object as it was at
    the [raise], and the next call goes on from there. *)
Definition run_updates (calls : list (float * Z)) (self : AverageTracker.t)
  : AverageTracker.t :=
  fold_left
    (fun self c => state_of (AverageTracker.update (fst c) (snd c) self))
    calls self.

(** The weight [n] is within the range of a [float]. *)
Definition in_float_range (n : Z) : Prop := is_infinity (nearest_float n) = false.

(** The cumulative totals of [v * n] and of [n] over [calls], accumulated
    in call order from [0.] in [float] arithmetic. *)
Definition weighted_total (calls : list (float * Z)) : float :=
  fold_left (fun acc c => acc + fst c * nearest_float (snd c))%float calls 0%float.

Definition weight_total (calls : list (float * Z)) : float :=
  fold_left (fun acc c => acc + nearest_float (snd c))%float calls 0%float.

(** ** Correct rounding to four decimals *)

(** [k] is an integer nearest to [m * 2^e * 10^4]: the two differ by at most
    one half. *)
Definition nearest_to_scaled (m : positive) (e : Z) (k : N) : Prop :=
  let num := Zpos m * 10000 * 2 ^ Z.max e 0 in
  let den := 2 ^ Z.max (- e) 0 in
  Z.abs (2 * (Z.of_N k * den - num)) <= den.

(** ** Group states *)

(** The tracker that an update of [name] starts from: the stored one, or a
    new one when the group has none under [name]. *)
Definition tracker_before (name : string) (self : AverageTrackerGroup.t)
  : AverageTracker.t :=
  match getitem name (AverageTrackerGroup._storage self) with
  | Return tracker => tracker
  | Raise _ => AverageTracker.__init__ name
  end.

(** What iterating [items()] over an unchanged group yields. *)
Definition listing (self : AverageTrackerGroup.t) : list (string * float) :=
  map (fun kv => (fst kv, AverageTracker.item (snd kv)))
      (AverageTrackerGroup._storage self).

(** The names of [data] that are not in [seen], each once, in the order in
    which they first appear. *)
Fixpoint fresh_keys (seen : list string) (data : odict datum) : list string :=
  match data with
  | [] => []
  | (name, _) :: data' =>
    if existsb (String.eqb name) seen then fresh_keys seen data'
    else name :: fresh_keys (seen ++ [name]) data'
  end.

(** The states a group can be in: constructed, then updated (whether the
    call returned or raised), reset and read any number of times. *)
Inductive reachable : AverageTrackerGroup.t -> Prop :=
| reachable_init : reachable AverageTrackerGroup.__init__
| reachable_update data self :
    reachable self ->
    reachable (state_of (AverageTrackerGroup.update data self))
| reachable_reset self :
    reachable self -> reachable (AverageTrackerGroup.reset self)
| reachable_getitem item self :
    reachable self ->
    reachable (state_of (AverageTrackerGroup.__getitem__ item self))
| reachable_getattr item self :
    reachable self ->
    reachable (state_of (AverageTrackerGroup.__getattr__ item self)).

(** Every stored tracker carries the name it is stored under. *)
Definition well_named (self : AverageTrackerGroup.t) : Prop :=
  Forall (fun kv => AverageTracker.name (snd kv) = fst kv)
         (AverageTrackerGroup._storage self).

(** ** Sample runs *)

Definition sample_data : odict datum :=
  [("a", Iterable (Tuple2 2 3)); ("b", Scalar 4)]%string.

(** A group that was updated, reset and updated again. *)
Definition sample_group : AverageTrackerGroup.t :=
  state_of (AverageTrackerGroup.update [("b", Scalar 1)]%string
    (AverageTrackerGroup.reset
      (state_of (AverageTrackerGroup.update
         [("a", Iterable (Tuple2 2 0)); ("b", Scalar 4)]%string
         AverageTrackerGroup.__init__)))).

(** ** Sequences of group calls *)

(** The group after the calls [update({name: (v, n)})] for [(v, n)] in
    [calls] were made on it in order, each call raising or not. *)
Definition run_group_updates (name : string) (calls : list (float * Z))
    (self : AverageTrackerGroup.t) : AverageTrackerGroup.t :=
  fold_left
    (fun self c =>
       state_of (AverageTrackerGroup.update
                   [(name, Iterable (Tuple2 (fst c) (snd c)))] self))
    calls self.

(** ** Attribute names and yielded pairs *)

(** The names that an instance has from [object] and from the class
    machinery in Python 3.7, a value for the parameter [inherited] of
    [ordinary_lookup]. *)
Definition object_attributes : list string :=
  ["__class__"; "__delattr__"; "__dict__"; "__dir__"; "__doc__"; "__eq__";
   "__format__"; "__ge__"; "__getattribute__"; "__gt__"; "__hash__";
   "__init_subclass__"; "__le__"; "__lt__"; "__module__"; "__ne__";
   "__new__"; "__reduce__"; "__reduce_ex__"; "__setattr__"; "__sizeof__";
   "__subclasshook__"; "__weakref__"]%string.

(** The names in storage order, each with the [avg] that its tracker has
    now. *)
Definition current_pairs (self : AverageTrackerGroup.t) : list (string * float) :=
  map (fun kv => (fst kv, AverageTracker.avg (snd kv)))
      (AverageTrackerGroup._storage self).

(** * Properties *)

(** ** Facts about binary64 arithmetic *)

Section FloatFacts.

Local Open Scope float_scope.

Lemma Prim2SF_zero : Prim2SF 0 = S754_zero false.
Proof. reflexivity. Qed.

Lemma Prim2SF_infinity : Prim2SF infinity = S754_infinity false.
Proof. reflexivity. Qed.

Lemma is_zero_spec (x : float) :
  is_zero x = match Prim2SF x with S754_zero _ => true | _ => false end.
Proof.
  unfold is_zero. rewrite eqb_spec. change zero with 0.
  rewrite Prim2SF_zero.
  destruct (Prim2SF x) as [s | s | | s m e]; try destruct s; reflexivity.
Qed.

Lemma is_infinity_spec (x : float) :
  is_infinity x = match Prim2SF x with S754_infinity _ => true | _ => false end.
Proof.
  unfold is_infinity. rewrite eqb_spec, abs_spec, Prim2SF_infinity.
  destruct (Prim2SF x) as [s | s | | s m e]; try destruct s; reflexivity.
Qed.

(** A positive number is not a zero. *)
Lemma positive_not_zero (x : float) : (0 <? x) = true -> is_zero x = false.
Proof.
  rewrite ltb_spec, is_zero_spec, Prim2SF_zero.
  destruct (Prim2SF x) as [s | s | | s m e]; try reflexivity.
  discriminate.
Qed.

Lemma SFcompare_finite_Eq s1 m1 e1 s2 m2 e2 :
  SFcompare (S754_finite s1 m1 e1) (S754_finite s2 m2 e2) = Some Eq ->
  s1 = s2 /\ m1 = m2 /\ e1 = e2.
Proof.
  simpl. destruct s1, s2; try discriminate;
    destruct (Z.compare e1 e2) eqn:He; try discriminate;
    apply Z.compare_eq in He;
    destruct (Pos.compare_cont Eq m1 m2) eqn:Hm; try discriminate;
    apply Pos.compare_eq in Hm; auto.
Qed.

Lemma SFadd_opp_finite s m e :
  SF64add (S754_finite (negb s) m e) (S754_finite s m e) = S754_zero false.
Proof.
  unfold SF64add, SFadd. rewrite Z.min_id.
  unfold shl_align. rewrite Z.sub_diag. cbn [fst].
  replace (cond_Zopp (negb s) (Zpos m) + cond_Zopp s (Zpos m))%Z with 0%Z
    by (destruct s; cbn; rewrite ?Z.pos_sub_diag; reflexivity).
  reflexivity.
Qed.

(** Adding a finite number to a number equal to its opposite gives a zero. *)
Lemma add_opposite_is_zero (x y : float) :
  is_infinity y = false -> (x =? - y) = true -> is_zero (x + y) = true.
Proof.
  rewrite is_infinity_spec, eqb_spec, opp_spec, is_zero_spec, add_spec.
  unfold SFeqb.
  destruct (Prim2SF y) as [sy | sy | | sy my ey];
    destruct (Prim2SF x) as [sx | sx | | sx mx ex]; cbn [SFopp];
    try discriminate; intros _;
    try (destruct sx; try destruct sy; cbn; first [discriminate | reflexivity]).
  destruct (SFcompare _ _) as [[ | | ] | ] eqn:Hc; try discriminate.
  apply SFcompare_finite_Eq in Hc as (-> & -> & ->).
  intros _. rewrite SFadd_opp_finite. reflexivity.
Qed.

End FloatFacts.

(** ** [AverageTracker] *)

Section TrackerFacts.

Import AverageTracker.
Local Open Scope float_scope.

Lemma float_of_int_in_range (n : Z) :
  in_float_range n -> float_of_int n = Return (nearest_float n).
Proof. unfold float_of_int, in_float_range. intros ->. reflexivity. Qed.

Lemma float_of_int_Return (n : Z) (f : float) :
  float_of_int n = Return f -> in_float_range n /\ f = nearest_float n.
Proof.
  unfold float_of_int, in_float_range.
  destruct (is_infinity (nearest_float n)); [discriminate |].
  intros [= <-]. split; reflexivity.
Qed.

(** One call of [update] whose weight converts: the first three
    assignments always happen, the fourth unless the new count is a zero. *)
Lemma update_in_range (value : float) (n : Z) (self : t) :
  in_float_range n ->
  update value n self =
    let n' := nearest_float n in
    let s := sum self + value * n' in
    let c := count self + n' in
    if is_zero c
    then (mk (name self) value s c (avg self), Raise ZeroDivisionError)
    else (mk (name self) value s c (s / c), Return tt).
Proof.
  intros Hn. unfold update, bind, modify, get, lift.
  rewrite (float_of_int_in_range n Hn). unfold float_truediv.
  cbn -[is_zero]. destruct (is_zero _); reflexivity.
Qed.

(** A weight out of range: only [self.val] has been assigned. *)
Lemma update_overflow (value : float) (n : Z) (self : t) :
  is_infinity (nearest_float n) = true ->
  update value n self = (set_val value self, Raise OverflowError).
Proof.
  intros Hn. unfold update, bind, modify, get, lift, float_of_int.
  rewrite Hn. reflexivity.
Qed.

Lemma update_name (value : float) (n : Z) (self : t) :
  name (state_of (update value n self)) = name self.
Proof.
  destruct (is_infinity (nearest_float n)) eqn:Hn.
  - rewrite update_overflow by assumption. reflexivity.
  - rewrite update_in_range by assumption. cbv zeta.
    destruct (is_zero _); reflexivity.
Qed.

Lemma update_sum_count (value : float) (n : Z) (self : t) :
  in_float_range n ->
  sum (state_of (update value n self)) = sum self + value * nearest_float n /\
  count (state_of (update value n self)) = count self + nearest_float n.
Proof.
  intros Hn. rewrite update_in_range by assumption. cbv zeta.
  destruct (is_zero _); split; reflexivity.
Qed.

Lemma run_updates_snoc calls c self :
  run_updates (calls ++ [c]) self =
  state_of (update (fst c) (snd c) (run_updates calls self)).
Proof. unfold run_updates. rewrite fold_left_app. reflexivity. Qed.

(** The accumulators after a sequence of calls, from any starting state. *)
Lemma run_updates_totals calls : forall self,
  Forall (fun c => in_float_range (snd c)) calls ->
  sum (run_updates calls self) =
    fold_left (fun acc c => acc + fst c * nearest_float (snd c)) calls (sum self) /\
  count (run_updates calls self) =
    fold_left (fun acc c => acc + nearest_float (snd c)) calls (count self).
Proof.
  induction calls as [| [v n] calls IH]; intros self Hall.
  - split; reflexivity.
  - apply Forall_cons_iff in Hall as [Hn Hall]. cbn [snd] in Hn.
    destruct (update_sum_count v n self Hn) as [Hs Hc].
    destruct (IH (state_of (update v n self)) Hall) as [IHs IHc].
    cbn [run_updates fold_left fst snd] in *. unfold run_updates in *.
    rewrite IHs, IHc, Hs, Hc. split; reflexivity.
Qed.

(** C1: after each call of a sequence of [update(v_i, n_i)] on a new
    tracker (the weights being within the range of a float), [sum] is the
    cumulative total of [v_i * n_i], [count] is the cumulative total of
    [n_i], [val] is the value argument of the latest call, and [avg] is
    [sum / count] whenever [count > 0]. *)
Theorem update_keeps_running_average
    (name : string) (calls : list (float * Z)) (value : float) (n : Z) :
  Forall (fun c => in_float_range (snd c)) (calls ++ [(value, n)]) ->
  let self := run_updates (calls ++ [(value, n)]) (__init__ name) in
  sum self = weighted_total (calls ++ [(value, n)]) /\
  count self = weight_total (calls ++ [(value, n)]) /\
  val self = value /\
  ((0 <? count self) = true -> avg self = sum self / count self).
Proof.
  intros Hall self.
  destruct (run_updates_totals _ (__init__ name) Hall) as [Hs Hc].
  split; [exact Hs |]. split; [exact Hc |].
  apply Forall_app in Hall as [_ Hn].
  apply Forall_cons_iff in Hn as [Hn _]. cbn [snd] in Hn.
  subst self. rewrite run_updates_snoc. cbn [fst snd].
  rewrite update_in_range by assumption. cbv zeta.
  destruct (is_zero _) eqn:Hz; cbn [state_of fst val count sum avg].
  - split; [reflexivity |]. intros Hpos.
    apply positive_not_zero in Hpos. congruence.
  - split; reflexivity.
Qed.

Lemma update_keeps_running_average_witness :
  Forall (fun c => in_float_range (snd c)) ([(2, 3%Z)] ++ [(8, 1%Z)]) /\
  let self := run_updates ([(2, 3%Z)] ++ [(8, 1%Z)]) (__init__ "a") in
  sum self = weighted_total ([(2, 3%Z)] ++ [(8, 1%Z)]) /\
  count self = weight_total ([(2, 3%Z)] ++ [(8, 1%Z)]) /\
  val self = 8 /\
  ((0 <? count self) = true -> avg self = sum self / count self).
Proof.
  assert (H : Forall (fun c => in_float_range (snd c)) ([(2, 3%Z)] ++ [(8, 1%Z)]))
    by (repeat constructor).
  split; [exact H |].
  exact (update_keeps_running_average "a" [(2, 3%Z)] 8 1%Z H).
Defined.

Example running_average_3_5 :
  avg (run_updates [(2, 3%Z); (8, 1%Z)] (__init__ "a")) = 3.5.
Proof. reflexivity. Qed.

(** The division is not guarded: an update that leaves [count] at a zero
    raises, and [avg] is the one attribute that keeps its value. *)
Lemma update_zero_count (value : float) (n : Z) (n' : float) (self : t) :
  float_of_int n = Return n' ->
  is_zero (count self + n') = true ->
  update value n self =
    (mk (name self) value (sum self + value * n') (count self + n') (avg self),
     Raise ZeroDivisionError).
Proof.
  intros Hn Hz. apply float_of_int_Return in Hn as [Hn ->].
  rewrite update_in_range by assumption. cbv zeta. rewrite Hz. reflexivity.
Qed.

(** C2, as the code has it: an update whose weight leaves the cumulative
    count at 0 does not skip the division; it raises [ZeroDivisionError],
    and [avg] keeps the value it had before the call. *)
Theorem zero_count_update_raises
    (self : t) (value : float) (n : Z) (n' : float) :
  float_of_int n = Return n' ->
  is_zero (count self + n') = true ->
  result_of (update value n self) = Raise ZeroDivisionError /\
  avg (state_of (update value n self)) = avg self.
Proof.
  intros Hn Hz. rewrite (update_zero_count value n n' self Hn Hz).
  split; reflexivity.
Qed.

Lemma zero_count_update_raises_witness :
  float_of_int 0 = Return 0 /\
  is_zero (count (__init__ "loss") + 0) = true /\
  result_of (update 1 0 (__init__ "loss")) = Raise ZeroDivisionError /\
  avg (state_of (update 1 0 (__init__ "loss"))) = avg (__init__ "loss").
Proof.
  split; [reflexivity |]. split; [reflexivity |].
  apply (zero_count_update_raises (__init__ "loss") 1 0%Z 0);
    reflexivity.
Defined.

(** C2 fails on the code: the first update of a new tracker with weight 0
    leaves [count] at 0 and raises instead of returning. *)
Lemma zero_weight_first_update_faults :
  let r := update 1 0 (__init__ "loss") in
  is_zero (count (state_of r)) = true /\
  result_of r = Raise ZeroDivisionError /\
  result_of r <> Return tt.
Proof.
  split; [reflexivity |]. split; [reflexivity |]. discriminate.
Qed.

(** C10: when [count] equals [-n], [update(value, n)] raises
    [ZeroDivisionError] after [val], [sum] and [count] have been assigned:
    the object keeps the new [val], [sum + value * n] and [count + n], and
    the old [avg]. *)
Theorem failed_update_is_not_atomic
    (self : t) (value : float) (n : Z) (n' : float) :
  float_of_int n = Return n' ->
  (count self =? - n') = true ->
  update value n self =
    (mk (name self) value (sum self + value * n') (count self + n') (avg self),
     Raise ZeroDivisionError).
Proof.
  intros Hn Heq. apply update_zero_count; [assumption |].
  apply add_opposite_is_zero; [| assumption].
  apply float_of_int_Return in Hn as [Hn ->]. exact Hn.
Qed.

Lemma failed_update_is_not_atomic_witness :
  float_of_int (-3) = Return (-3) /\
  (count (mk "loss" 2 6 3 2) =? - (-3)) = true /\
  update 5 (-3) (mk "loss" 2 6 3 2) =
    (mk "loss" 5 (6 + 5 * (-3)) (3 + (-3)) 2, Raise ZeroDivisionError).
Proof.
  split; [reflexivity |]. split; [reflexivity |].
  apply (failed_update_is_not_atomic (mk "loss" 2 6 3 2) 5 (-3)%Z (-3));
    reflexivity.
Defined.

(** The case singled out by C10: a new or reset tracker and [n = 0]. *)
Example fresh_tracker_zero_weight (name : string) (value : float) :
  update value 0 (__init__ name) =
    (mk name value (0 + value * 0) 0 0, Raise ZeroDivisionError).
Proof.
  rewrite (update_zero_count value 0%Z 0 (__init__ name)); reflexivity.
Qed.

(** C5: [reset] sets [val], [sum], [count] and [avg] to 0 and keeps
    [name], whatever the tracker went through before; the reads [item] and
    [__call__] and the rendering then show the zero state, which is the
    state of a new tracker of that name. *)
Theorem reset_gives_zero_state (self : t) :
  let r := reset self in
  name r = name self /\
  val r = 0 /\ sum r = 0 /\ count r = 0 /\ avg r = 0 /\
  item r = 0 /\ __call__ r = 0 /\
  r = __init__ (name self) /\
  __str__ r = (name self ++ " 0.0000 (0.0000)")%string.
Proof. cbv zeta. repeat split; reflexivity. Qed.

Example reset_after_updates :
  reset (run_updates [(2, 3%Z); (8, 1%Z); (1, 0%Z)] (__init__ "a")) =
  mk "a" 0 0 0 0.
Proof. reflexivity. Qed.

End TrackerFacts.


(** ** Rendering *)

Section FormatFacts.

Import AverageTracker.

Lemma round_half_even_nearest (num den : N) :
  (den <> 0)%N ->
  let q := round_half_even num den in
  (2 * q * den <= 2 * num + den /\ 2 * num <= 2 * q * den + den)%N.
Proof.
  intros Hden. unfold round_half_even.
  pose proof (N.div_mod num den Hden) as Hdm.
  pose proof (N.mod_lt num den Hden) as Hlt.
  remember (N.div num den) as q eqn:Hq.
  remember (N.modulo num den) as r eqn:Hr. clear Hq Hr.
  destruct (N.compare_spec (2 * r) den) as [Heq | Hl | Hg];
    try destruct (N.even q); cbv zeta; nia.
Qed.

Lemma scaled4_nearest (m : positive) (e : Z) :
  nearest_to_scaled m e (scaled4 m e).
Proof.
  unfold nearest_to_scaled, scaled4. destruct e as [| p | p]; cbv zeta.
  - cbn [Z.max Z.opp Z.pow]. rewrite N2Z.inj_mul. cbn [Z.of_N]. lia.
  - replace (Z.max (Z.pos p) 0) with (Z.pos p) by lia.
    replace (Z.max (- Z.pos p) 0) with 0 by lia.
    rewrite !N2Z.inj_mul, N2Z.inj_pow. cbn [Z.of_N Z.pow]. lia.
  - replace (Z.max (Z.neg p) 0) with 0 by lia.
    replace (Z.max (- Z.neg p) 0) with (Z.pos p) by lia.
    assert (Hden : (2 ^ N.pos p <> 0)%N) by (apply N.pow_nonzero; discriminate).
    pose proof (round_half_even_nearest (N.pos m * 10000) (2 ^ N.pos p) Hden) as H.
    cbv zeta in H. destruct H as [H1 H2].
    apply N2Z.inj_le in H1, H2.
    rewrite ?N2Z.inj_add, ?N2Z.inj_mul, ?N2Z.inj_pow in H1, H2.
    cbn [Z.of_N Z.pow] in *.
    remember (Z.of_N (round_half_even (N.pos m * 10000) (2 ^ N.pos p))) as k.
    remember (2 ^ Z.pos p) as d.
    clear Heqk Heqd Hden. lia.
Qed.

(** The fractional part is printed with exactly four digits. *)
Lemma fraction_width (k : N) :
  String.length (pad_left 4 (string_of_N (N.modulo k 10000))) = 4%nat.
Proof.
  assert (Hall : forallb
            (fun i => Nat.eqb (String.length (pad_left 4 (string_of_N (N.of_nat i)))) 4)
            (seq 0 (N.to_nat 10000)) = true) by (vm_compute; reflexivity).
  rewrite forallb_forall in Hall.
  assert (Hlt : (N.modulo k 10000 < 10000)%N) by (apply N.mod_lt; discriminate).
  remember (N.modulo k 10000) as r eqn:Hr. clear Hr.
  specialize (Hall (N.to_nat r)).
  rewrite N2Nat.id in Hall. apply Nat.eqb_eq, Hall, in_seq. lia.
Qed.

(** C9: a tracker renders as [name], a space, [val] with four decimals, a
    space and [avg] with four decimals in parentheses.  With four decimals
    means: a finite number is printed as its sign, the integer part and
    exactly four digits of the value correctly rounded at the fourth
    decimal (a zero as [0.0000]), and the other values of a float as [inf],
    [-inf] and [nan].  [val = 1.23456] and [avg = 2.0] show as [1.2346] and
    [2.0000]. *)
Theorem tracker_rendering :
  (forall self : t,
     __str__ self =
       name self ++ " " ++ format_4f (val self) ++
       " (" ++ format_4f (avg self) ++ ")")%string /\
  (forall x : float,
     match Prim2SF x with
     | S754_finite s m e =>
       exists k : N,
         nearest_to_scaled m e k /\
         String.length (pad_left 4 (string_of_N (N.modulo k 10000))) = 4%nat /\
         format_4f x =
           (if s then "-" else "") ++ string_of_N (N.div k 10000) ++ "." ++
           pad_left 4 (string_of_N (N.modulo k 10000))
     | S754_zero s => format_4f x = (if s then "-" else "") ++ "0.0000"
     | S754_infinity s => format_4f x = (if s then "-" else "") ++ "inf"
     | S754_nan => format_4f x = "nan"
     end)%string /\
  (forall (name : string) (sum count : float),
     __str__ (mk name 1.23456 sum count 2) = name ++ " 1.2346 (2.0000)")%string /\
  String.index 0 "1.2346" (__str__ (mk "loss" 1.23456 7 3 2)) = Some 5%nat /\
  String.index 0 "2.0000" (__str__ (mk "loss" 1.23456 7 3 2)) = Some 13%nat.
Proof.
  split; [reflexivity |]. split; [| repeat split; reflexivity].
  intros x. unfold format_4f.
  destruct (Prim2SF x) as [s | s | | s m e];
    try reflexivity; try (destruct s; reflexivity).
  exists (scaled4 m e).
  split; [apply scaled4_nearest |]. split; [apply fraction_width |].
  reflexivity.
Qed.

End FormatFacts.


(** ** Dictionary facts *)

Section OrderedDictFacts.

Context {V : Type}.
Implicit Types (d : odict V) (key : string) (v : V).

Lemma contains_false_getitem key d :
  contains key d = false -> getitem key d = Raise (KeyError key).
Proof.
  induction d as [| [k w] d IH]; cbn; [reflexivity |].
  destruct (String.eqb k key); [discriminate | exact IH].
Qed.

Lemma contains_true_getitem key d :
  contains key d = true -> exists v, getitem key d = Return v.
Proof.
  induction d as [| [k w] d IH]; cbn; [discriminate |].
  destruct (String.eqb k key); [eauto | exact IH].
Qed.

Lemma getitem_Return_contains key d v :
  getitem key d = Return v -> contains key d = true.
Proof.
  destruct (contains key d) eqn:Hc; [reflexivity |].
  rewrite (contains_false_getitem _ _ Hc). discriminate.
Qed.

Lemma getitem_setitem_eq key v d : getitem key (setitem key v d) = Return v.
Proof.
  induction d as [| [k w] d IH]; cbn.
  - rewrite String.eqb_refl. reflexivity.
  - destruct (String.eqb k key) eqn:Hk; cbn; rewrite Hk; [reflexivity | exact IH].
Qed.

Lemma getitem_setitem_ne key key' v d :
  key <> key' -> getitem key' (setitem key v d) = getitem key' d.
Proof.
  intros Hne. induction d as [| [k w] d IH]; cbn.
  - apply String.eqb_neq in Hne. rewrite Hne. reflexivity.
  - destruct (String.eqb k key) eqn:Hk; cbn.
    + apply String.eqb_eq in Hk. subst k.
      apply String.eqb_neq in Hne. rewrite Hne. reflexivity.
    + rewrite IH. reflexivity.
Qed.

Lemma setitem_setitem key v w d :
  setitem key v (setitem key w d) = setitem key v d.
Proof.
  induction d as [| [k u] d IH]; cbn.
  - rewrite String.eqb_refl. reflexivity.
  - destruct (String.eqb k key) eqn:Hk; cbn; rewrite Hk; [reflexivity |].
    rewrite IH. reflexivity.
Qed.

Lemma keys_setitem key v d :
  keys (setitem key v d) = if contains key d then keys d else keys d ++ [key].
Proof.
  induction d as [| [k w] d IH]; cbn; [reflexivity |].
  destruct (String.eqb k key) eqn:Hk; cbn; [reflexivity |].
  unfold keys in IH. rewrite IH. destruct (contains key d); reflexivity.
Qed.

Lemma contains_keys key d : contains key d = existsb (String.eqb key) (keys d).
Proof.
  induction d as [| [k w] d IH]; cbn; [reflexivity |].
  rewrite (String.eqb_sym key k), IH.
  destruct (String.eqb k key); reflexivity.
Qed.

Lemma contains_In key d : contains key d = true <-> In key (keys d).
Proof.
  rewrite contains_keys, existsb_exists. split.
  - intros (k & Hin & Hk). apply String.eqb_eq in Hk. subst. exact Hin.
  - intros Hin. exists key. split; [exact Hin | apply String.eqb_refl].
Qed.

Lemma setitem_new key v d :
  contains key d = false -> setitem key v d = d ++ [(key, v)].
Proof.
  induction d as [| [k w] d IH]; cbn; [reflexivity |].
  destruct (String.eqb k key); [discriminate |].
  intros Hc. rewrite IH by exact Hc. reflexivity.
Qed.

Lemma getitem_first key d v (P : string * V -> Prop) :
  Forall P d -> getitem key d = Return v -> P (key, v).
Proof.
  induction d as [| [k w] d IH]; cbn; [discriminate |].
  intros Hall. apply Forall_cons_iff in Hall as [Hkw Hall].
  destruct (String.eqb k key) eqn:Hk.
  - apply String.eqb_eq in Hk. subst k. intros [= <-]. exact Hkw.
  - apply IH, Hall.
Qed.

Lemma Forall_setitem key v d (P : string * V -> Prop) :
  Forall P d -> P (key, v) -> Forall P (setitem key v d).
Proof.
  intros Hall Hv. induction d as [| [k w] d IH]; cbn.
  - constructor; [exact Hv | constructor].
  - apply Forall_cons_iff in Hall as [Hkw Hall].
    destruct (String.eqb k key) eqn:Hk.
    + apply String.eqb_eq in Hk. subst k. constructor; assumption.
    + constructor; [exact Hkw | apply IH, Hall].
Qed.

Lemma skipn_nth_error {A} (l : list A) : forall (i : nat) (x : A),
  nth_error l i = Some x -> skipn i l = x :: skipn (S i) l.
Proof.
  induction l as [| y l IH]; intros [| i] x; cbn; try discriminate.
  - intros [= ->]. reflexivity.
  - intros H. rewrite (IH i x H). reflexivity.
Qed.

End OrderedDictFacts.

(** ** [AverageTrackerGroup] *)

Section GroupFacts.

Import AverageTrackerGroup.

(** The call that [update] makes on the tracker for a value of [data]. *)
Lemma update_entry_unfold (name : string) (value : datum) (self : t) :
  let call :=
    match value with
    | Scalar v | Iterable (Tuple1 v) => AverageTracker.update v 1
    | Iterable (Tuple2 v n) => AverageTracker.update v n
    | Iterable Tuple0 | Iterable (TupleN _ _ _ _) => lift (Raise TypeError)
    end in
  update_entry name value self =
    (mk (setitem name (state_of (call (tracker_before name self))) (_storage self)),
     result_of (call (tracker_before name self))).
Proof.
  cbv zeta.
  unfold update_entry, bind, get, modify, ret, tracker_before,
    AverageTracker.default_n.
  destruct (contains name (_storage self)) eqn:Hc.
  - destruct (contains_true_getitem _ _ Hc) as [tracker Hg].
    destruct value as [v | []];
      unfold on_tracker, update_unpacked, AverageTracker.default_n; cbn [_storage];
      rewrite Hg;
      match goal with |- context [let (_, _) := ?c in _] => destruct c end;
      reflexivity.
  - rewrite (contains_false_getitem _ _ Hc).
    destruct value as [v | []];
      unfold on_tracker, update_unpacked, AverageTracker.default_n; cbn [_storage];
      rewrite getitem_setitem_eq;
      match goal with |- context [let (_, _) := ?c in _] => destruct c end;
      rewrite setitem_setitem; reflexivity.
Qed.

Lemma update_entry_getitem_other (name key : string) (value : datum) (self : t) :
  name <> key ->
  getitem key (_storage (state_of (update_entry name value self))) =
  getitem key (_storage self).
Proof.
  intros Hne. rewrite update_entry_unfold. cbn [state_of fst _storage].
  apply getitem_setitem_ne. exact Hne.
Qed.

Lemma update_entry_keys (name : string) (value : datum) (self : t) :
  keys (_storage (state_of (update_entry name value self))) =
  if contains name (_storage self) then keys (_storage self)
  else keys (_storage self) ++ [name].
Proof.
  rewrite update_entry_unfold. cbn [state_of fst _storage]. apply keys_setitem.
Qed.

Lemma update_cons (name : string) (value : datum) (data : odict datum) (self : t) :
  update ((name, value) :: data) self =
  match result_of (update_entry name value self) with
  | Return _ => update data (state_of (update_entry name value self))
  | Raise e => (state_of (update_entry name value self), Raise e)
  end.
Proof.
  cbn [update]. unfold bind.
  destruct (update_entry name value self) as [self' [[] | e]]; reflexivity.
Qed.

Lemma update_getitem_other (data : odict datum) : forall (self : t) (key : string),
  ~ In key (keys data) ->
  getitem key (_storage (state_of (update data self))) = getitem key (_storage self).
Proof.
  induction data as [| [name value] data IH]; intros self key Hnot.
  - reflexivity.
  - cbn [keys map fst In] in Hnot. rewrite update_cons.
    assert (Hne : name <> key) by tauto.
    destruct (result_of (update_entry name value self)).
    + rewrite IH by (unfold keys; tauto).
      apply update_entry_getitem_other, Hne.
    + cbn [state_of fst]. apply update_entry_getitem_other, Hne.
Qed.

(** In a call [update(data)] that returns, [data] having each name once,
    the tracker stored under a name of [data] afterwards is the one that
    the call on the tracker left. *)
Lemma returning_update_stores_results (data : odict datum) : forall (self self' : t),
  update data self = (self', Return tt) ->
  NoDup (keys data) ->
  forall (name : string) (value : datum),
    In (name, value) data ->
    (contains name (_storage self) = false ->
     tracker_before name self = AverageTracker.mk name 0 0 0 0) /\
    exists after : AverageTracker.t,
      getitem name (_storage self') = Return after /\
      match value with
      | Scalar v | Iterable (Tuple1 v) =>
        AverageTracker.update v 1 (tracker_before name self) = (after, Return tt)
      | Iterable (Tuple2 v n) =>
        AverageTracker.update v n (tracker_before name self) = (after, Return tt)
      | Iterable Tuple0 | Iterable (TupleN _ _ _ _) => False
      end.
Proof.
  induction data as [| [k val] data IH]; intros self self' Hrun Hnodup name value Hin.
  - destruct Hin.
  - split.
    { intros Hc. unfold tracker_before.
      rewrite (contains_false_getitem _ _ Hc). reflexivity. }
    cbn [keys map fst] in Hnodup. apply NoDup_cons_iff in Hnodup as [Hk Hnodup].
    rewrite update_cons in Hrun.
    destruct (result_of (update_entry k val self)) as [[] | e] eqn:Hr;
      [| discriminate].
    destruct Hin as [[= -> ->] | Hin].
    + assert (Hsame : getitem name (_storage self') =
                      getitem name (_storage (state_of (update_entry name value self)))).
      { replace self' with (state_of (update data (state_of (update_entry name value self))))
          by (rewrite Hrun; reflexivity).
        apply update_getitem_other. exact Hk. }
      rewrite update_entry_unfold in Hr, Hsame. cbv zeta in Hr, Hsame.
      cbn [state_of result_of fst snd _storage] in Hr, Hsame.
      rewrite getitem_setitem_eq in Hsame.
      destruct value as [v | []]; cbv iota beta in Hr, Hsame;
        match type of Hr with
        | result_of ?c = _ =>
          destruct c as [after r] eqn:Hcall;
          unfold result_of, state_of in Hr, Hsame;
          cbn [fst snd] in Hr, Hsame; subst r
        end;
        try (exists after; split; [exact Hsame | reflexivity]);
        unfold lift in Hcall; discriminate.
    + assert (Hne : k <> name).
      { intros ->. apply Hk. apply (in_map fst) in Hin. exact Hin. }
      destruct (IH _ _ Hrun Hnodup name value Hin) as [_ (after & Hget & Hcall)].
      exists after. split; [exact Hget |].
      replace (tracker_before name self)
        with (tracker_before name (state_of (update_entry k val self))); [exact Hcall |].
      unfold tracker_before. rewrite update_entry_getitem_other by exact Hne.
      reflexivity.
Qed.

(** Two updates of one name, with plain numbers and with weighted tuples. *)
Example group_simple_average :
  let g1 := state_of (update [("a"%string, Scalar 2)] __init__) in
  let g2 := state_of (update [("a"%string, Scalar 4)] g1) in
  result_of (__getitem__ "a" g2) = Return 3%float.
Proof. reflexivity. Qed.

Example group_weighted_average :
  let g1 := state_of (update [("a"%string, Iterable (Tuple2 2 3))] __init__) in
  let g2 := state_of (update [("a"%string, Iterable (Tuple2 8 1))] g1) in
  result_of (__getitem__ "a" g2) = Return 3.5%float.
Proof. reflexivity. Qed.

Lemma existsb_eqb_In (x : string) (l : list string) :
  existsb (String.eqb x) l = true <-> In x l.
Proof.
  rewrite existsb_exists. split.
  - intros (y & Hin & Hy). apply String.eqb_eq in Hy. subst. exact Hin.
  - intros Hin. exists x. split; [exact Hin | apply String.eqb_refl].
Qed.

Lemma existsb_eqb_not_In (x : string) (l : list string) :
  ~ In x l -> existsb (String.eqb x) l = false.
Proof.
  intros Hnot. destruct (existsb (String.eqb x) l) eqn:He; [| reflexivity].
  apply existsb_eqb_In in He. contradiction.
Qed.

(** An attribute read evaluates to what the ordinary lookup finds, and
    goes to [__getattr__] for the other names only. *)
Lemma getattr_unfold (inherited : list string) (item : string) (self : t) :
  getattr inherited item self =
  match ordinary_lookup inherited item self with
  | Some a => (self, Return a)
  | None =>
    match getitem item (_storage self) with
    | Return tracker => (self, Return (Average (AverageTracker.avg tracker)))
    | Raise e => (self, Raise e)
    end
  end.
Proof.
  unfold getattr, __getattr__, bind, get, lift, ret.
  destruct (ordinary_lookup inherited item self); [reflexivity |].
  destruct (getitem item (_storage self)); reflexivity.
Qed.

Lemma ordinary_lookup_class_body (inherited : list string) (item : string) (self : t) :
  In item class_body ->
  ordinary_lookup inherited item self = Some (BoundMethod item).
Proof.
  intros Hin. unfold ordinary_lookup.
  assert (Hs : String.eqb item "_storage" = false).
  { apply String.eqb_neq. intros ->. cbn in Hin. intuition discriminate. }
  rewrite Hs. apply existsb_eqb_In in Hin. rewrite Hin. reflexivity.
Qed.

Lemma ordinary_lookup_None (inherited : list string) (item : string) (self : t) :
  item <> "_storage"%string -> ~ In item class_body -> ~ In item inherited ->
  ordinary_lookup inherited item self = None.
Proof.
  intros Hs Hc Hi. unfold ordinary_lookup.
  apply String.eqb_neq in Hs. rewrite Hs.
  rewrite !existsb_eqb_not_In by assumption. reflexivity.
Qed.

(** C4, as the code has it: for a name that is not in storage, indexing
    raises [KeyError] for that name, and so does an attribute read of a
    name that the ordinary lookup does not find (the method [__getattr__]
    is then called and indexes the storage); an attribute read of
    [_storage] or of a name of the class body returns that attribute and
    raises nothing.  No read creates an entry: the group is as before. *)
Theorem unknown_name_read_raises_KeyError
    (inherited : list string) (self : t) (item : string) :
  contains item (_storage self) = false ->
  __getitem__ item self = (self, Raise (KeyError item)) /\
  __getattr__ item self = (self, Raise (KeyError item)) /\
  (item <> "_storage"%string -> ~ In item class_body -> ~ In item inherited ->
   getattr inherited item self = (self, Raise (KeyError item))) /\
  (In item class_body ->
   getattr inherited item self = (self, Return (BoundMethod item))) /\
  (item = "_storage"%string ->
   getattr inherited item self = (self, Return (InstanceStorage (_storage self)))) /\
  state_of (getattr inherited item self) = self.
Proof.
  intros Hc. pose proof (contains_false_getitem _ _ Hc) as Hg.
  split; [| split; [| split; [| split; [| split]]]].
  - unfold __getitem__, bind, get, lift. rewrite Hg. reflexivity.
  - unfold __getattr__, bind, get, lift. rewrite Hg. reflexivity.
  - intros Hs Hb Hi. rewrite getattr_unfold, ordinary_lookup_None by assumption.
    rewrite Hg. reflexivity.
  - intros Hb. rewrite getattr_unfold, ordinary_lookup_class_body by assumption.
    reflexivity.
  - intros ->. rewrite getattr_unfold. reflexivity.
  - rewrite getattr_unfold, Hg.
    destruct (ordinary_lookup inherited item self); reflexivity.
Qed.

Lemma unknown_name_read_raises_KeyError_witness :
  let self := state_of (update [("a"%string, Scalar 2)] __init__) in
  contains "b" (_storage self) = false /\
  __getitem__ "b" self = (self, Raise (KeyError "b")) /\
  getattr object_attributes "b" self = (self, Raise (KeyError "b")) /\
  contains "reset" (_storage self) = false /\
  getattr object_attributes "reset" self = (self, Return (BoundMethod "reset")).
Proof.
  cbv zeta.
  pose proof (unknown_name_read_raises_KeyError object_attributes
                (state_of (update [("a"%string, Scalar 2)] __init__)) "b"
                eq_refl) as (Hidx & _ & Hattr & _).
  pose proof (unknown_name_read_raises_KeyError object_attributes
                (state_of (update [("a"%string, Scalar 2)] __init__)) "reset"
                eq_refl) as (_ & _ & _ & Hmeth & _).
  split; [reflexivity |]. split; [exact Hidx |].
  split; [apply Hattr; [discriminate | |]; cbn; intuition discriminate |].
  split; [reflexivity |].
  apply Hmeth. cbn. tauto.
Defined.

(** C4 fails on the code for the attribute read of a method name: [update]
    is not in the storage of a new group, and [group.update] is the bound
    method, not a [KeyError]. *)
Lemma method_name_read_returns_method :
  contains "update" (_storage __init__) = false /\
  getattr object_attributes "update" __init__ =
    (__init__, Return (BoundMethod "update")) /\
  result_of (getattr object_attributes "update" __init__) <>
    Raise (KeyError "update").
Proof. split; [reflexivity |]. split; [reflexivity | discriminate]. Qed.

(** The names after an [update]: those before, then the new names of the
    part of [data] that the loop went through, in order of first appearance. *)
Lemma update_keys (data : odict datum) : forall self : t,
  exists k : nat,
    (k <= List.length data)%nat /\
    keys (_storage (state_of (update data self))) =
      keys (_storage self) ++ fresh_keys (keys (_storage self)) (firstn k data) /\
    (result_of (update data self) = Return tt -> k = List.length data).
Proof.
  induction data as [| [name value] data IH]; intros self.
  - exists O. cbn. rewrite app_nil_r. auto.
  - rewrite update_cons.
    pose proof (update_entry_keys name value self) as Hk.
    rewrite contains_keys in Hk.
    destruct (result_of (update_entry name value self)) as [[] | e].
    + destruct (IH (state_of (update_entry name value self))) as (k & Hle & Hkeys & Hall).
      exists (S k). split; [cbn; lia |]. split; [| intros H; cbn; f_equal; auto].
      rewrite Hkeys, Hk. cbn [firstn fresh_keys].
      destruct (existsb _ _); [reflexivity |].
      rewrite <- app_assoc. reflexivity.
    + exists 1%nat. split; [cbn; lia |]. split; [| discriminate].
      unfold state_of in *. cbn [fst firstn fresh_keys]. rewrite Hk.
      destruct (existsb _ _); [rewrite app_nil_r |]; reflexivity.
Qed.

Lemma fresh_keys_all_seen (data : odict datum) (seen : list string) :
  (forall name, In name (keys data) -> In name seen) ->
  fresh_keys seen data = [].
Proof.
  induction data as [| [name value] data IH]; intros Hseen; [reflexivity |].
  cbn [fresh_keys].
  assert (Hin : existsb (String.eqb name) seen = true).
  { apply existsb_exists. exists name. split; [| apply String.eqb_refl].
    apply Hseen. left. reflexivity. }
  rewrite Hin. apply IH. intros k Hk. apply Hseen. right. exact Hk.
Qed.

(** C6: [reset] leaves the group with an empty storage, so that a formerly
    tracked name is unknown afterwards; [update] only ever appends names to
    those already stored, and the reads do not change the group. *)
Theorem group_reset_forgets_names :
  (forall self : t, _storage (reset self) = []) /\
  (forall (self : t) (name : string),
     contains name (_storage (reset self)) = false /\
     __getitem__ name (reset self) = (reset self, Raise (KeyError name))) /\
  (forall (data : odict datum) (self : t),
     exists added : list string,
       keys (_storage (state_of (update data self))) =
       keys (_storage self) ++ added) /\
  (forall (item : string) (self : t),
     state_of (__getitem__ item self) = self /\
     state_of (__getattr__ item self) = self).
Proof.
  split; [reflexivity |]. split; [split; reflexivity |]. split.
  - intros data self. destruct (update_keys data self) as (k & _ & Hkeys & _).
    eexists. exact Hkeys.
  - intros item self. unfold __getitem__, __getattr__, bind, get, lift, ret.
    destruct (getitem item (_storage self)); split; reflexivity.
Qed.

Example reset_forgets_not_zeroes :
  let g := state_of (update [("a"%string, Scalar 2)] __init__) in
  result_of (__getitem__ "a" g) = Return 2%float /\
  result_of (__getitem__ "a" (reset g)) = Raise (KeyError "a").
Proof. split; reflexivity. Qed.

(** Iterating from position [pos] yields the rest of the listing. *)
Lemma drain_from (self : t) : forall (fuel pos : nat),
  (List.length (_storage self) <= pos + fuel)%nat ->
  drain fuel self (Running None (List.length (_storage self)) pos) =
  Some (skipn pos (listing self), StopIteration).
Proof.
  induction fuel as [| fuel IH]; intros pos Hlen.
  - assert (Hle : Nat.leb (List.length (_storage self)) pos = true)
      by (apply Nat.leb_le; lia).
    cbn [drain next]. unfold advance. rewrite Hle.
    rewrite skipn_all2 by (unfold listing; rewrite length_map; lia).
    reflexivity.
  - cbn [drain next]. unfold advance.
    destruct (Nat.leb (List.length (_storage self)) pos) eqn:Hle.
    + apply Nat.leb_le in Hle.
      rewrite skipn_all2 by (unfold listing; rewrite length_map; lia).
      reflexivity.
    + apply Nat.leb_gt in Hle. rewrite Nat.eqb_refl. cbn [negb].
      destruct (nth_error (_storage self) pos) as [[key val] |] eqn:Hnth.
      * rewrite IH by lia.
        rewrite (skipn_nth_error (listing self) pos (key, AverageTracker.item val));
          [reflexivity |].
        unfold listing. rewrite nth_error_map, Hnth. reflexivity.
      * apply nth_error_None in Hnth. lia.
Qed.

(** A generator that has not started iterates the whole listing. *)
Lemma drain_items (self : t) (fuel : nat) :
  (List.length (_storage self) <= fuel)%nat ->
  drain fuel self (items self) = Some (listing self, StopIteration).
Proof.
  intros Hlen.
  assert (Hsame : drain fuel self (items self) =
                  drain fuel self (Running None (List.length (_storage self)) 0))
    by (destruct fuel; reflexivity).
  rewrite Hsame, drain_from by lia. reflexivity.
Qed.

Lemma In_setitem_other {V : Type} (name key : string) (v w : V) (d : odict V) :
  name <> key -> (In (key, w) (setitem name v d) <-> In (key, w) d).
Proof.
  intros Hne. induction d as [| [k u] d IH]; cbn [setitem].
  - cbn. split; [intros [[= -> _] | []]; contradiction | intros []].
  - destruct (String.eqb k name) eqn:Hk.
    + apply String.eqb_eq in Hk. subst k. cbn.
      split; (intros [[= -> _] | H]; [contradiction | right; exact H]).
    + cbn. rewrite IH. reflexivity.
Qed.

(** The entries of the names that are not in [data] are the same before
    and after an [update]. *)
Lemma update_In_other (data : odict datum) : forall (self : t) (key : string) (w : AverageTracker.t),
  ~ In key (keys data) ->
  (In (key, w) (_storage (state_of (update data self))) <-> In (key, w) (_storage self)).
Proof.
  induction data as [| [name value] data IH]; intros self key w Hnot; [reflexivity |].
  cbn [keys map fst In] in Hnot. rewrite update_cons.
  assert (Hne : name <> key) by tauto.
  assert (Hstep : In (key, w) (_storage (state_of (update_entry name value self))) <->
                  In (key, w) (_storage self)).
  { rewrite update_entry_unfold. cbv zeta. cbn [state_of fst _storage].
    apply In_setitem_other, Hne. }
  destruct (result_of (update_entry name value self)).
  - rewrite IH by (unfold keys; tauto). exact Hstep.
  - exact Hstep.
Qed.

(** C7, as the code has it: each call of [items()] gives a new generator
    that yields, one by one and then stops, the pairs of a name and the
    [avg] that its tracker has at that moment, in storage order, which is
    the order of first insertion; two iterations agree when the group is
    not changed between them.  An update between them keeps the stored
    names and their order and puts new names last; it leaves the pairs of
    the names that are not in [data] as they were, while the pair of an
    updated name carries the new average; after a [reset] nothing is
    yielded. *)
Theorem items_yields_current_averages :
  (forall (self : t) (extra : nat),
     drain (List.length (_storage self) + extra) self (items self) =
     Some (current_pairs self, StopIteration)) /\
  (forall (self : t) (pos : nat) (key : string) (tracker : AverageTracker.t),
     nth_error (_storage self) pos = Some (key, tracker) ->
     next self (Running None (List.length (_storage self)) pos) =
     (Yield (key, AverageTracker.avg tracker),
      Running None (List.length (_storage self)) (S pos))) /\
  (forall self : t, map fst (current_pairs self) = keys (_storage self)) /\
  (forall (data : odict datum) (self : t),
     exists k : nat,
       (k <= List.length data)%nat /\
       keys (_storage (state_of (update data self))) =
         keys (_storage self) ++ fresh_keys (keys (_storage self)) (firstn k data) /\
       (result_of (update data self) = Return tt -> k = List.length data)) /\
  (forall (data : odict datum) (self : t) (key : string) (x : float),
     ~ In key (keys data) ->
     (In (key, x) (current_pairs (state_of (update data self))) <->
      In (key, x) (current_pairs self))) /\
  (forall (self : t) (name : string) (value : datum),
     exists tracker : AverageTracker.t,
       getitem name (_storage (state_of (update [(name, value)] self))) =
         Return tracker /\
       In (name, AverageTracker.avg tracker)
          (current_pairs (state_of (update [(name, value)] self))) /\
       (contains name (_storage self) = false ->
        current_pairs (state_of (update [(name, value)] self)) =
        current_pairs self ++ [(name, AverageTracker.avg tracker)])) /\
  (forall (self : t) (fuel : nat),
     drain fuel (reset self) (items (reset self)) = Some ([], StopIteration)).
Proof.
  split; [| split; [| split; [| split; [| split; [| split]]]]].
  - intros self extra. rewrite drain_items by lia. reflexivity.
  - intros self pos key tracker Hnth. cbn [next]. unfold advance.
    assert (Hlt : (pos < List.length (_storage self))%nat)
      by (apply nth_error_Some; congruence).
    apply Nat.leb_gt in Hlt. rewrite Hlt, Nat.eqb_refl, Hnth. reflexivity.
  - intros self. unfold current_pairs, keys. rewrite map_map. reflexivity.
  - exact update_keys.
  - intros data self key x Hnot. unfold current_pairs. rewrite !in_map_iff.
    split; intros ([k w] & [= -> <-] & Hin); exists (key, w);
      (split; [reflexivity |]); apply (update_In_other data self key w Hnot);
      exact Hin.
  - intros self name value.
    assert (Hst : state_of (update [(name, value)] self) =
                  state_of (update_entry name value self)).
    { rewrite update_cons.
      destruct (result_of (update_entry name value self)); reflexivity. }
    rewrite Hst, update_entry_unfold. cbv zeta.
    cbn [state_of fst _storage]. eexists.
    split; [apply getitem_setitem_eq |]. split.
    + unfold current_pairs. cbn [_storage]. apply in_map_iff.
      eexists (name, _). split; [reflexivity |].
      generalize (_storage self). intros d.
      induction d as [| [k u] d IH]; cbn [setitem]; [left; reflexivity |].
      destruct (String.eqb k name) eqn:Hk.
      * apply String.eqb_eq in Hk. subst k. left. reflexivity.
      * right. exact IH.
    + intros Hc. unfold current_pairs. cbn [_storage].
      rewrite setitem_new by exact Hc. rewrite map_app. reflexivity.
  - intros self fuel. destruct fuel; reflexivity.
Qed.

(** C7 fails on the code: between the two iterations the group is updated
    under the name that it already has, no name is new, and the pairs
    differ. *)
Lemma known_name_update_changes_pairs :
  let g1 := state_of (update [("a"%string, Scalar 2)] __init__) in
  let g2 := state_of (update [("a"%string, Scalar 4)] g1) in
  keys (_storage g2) = keys (_storage g1) /\
  drain 1 g1 (items g1) = Some ([("a"%string, 2%float)], StopIteration) /\
  drain 1 g2 (items g2) = Some ([("a"%string, 3%float)], StopIteration) /\
  drain 1 g1 (items g1) <> drain 1 g2 (items g2).
Proof.
  cbv zeta. split; [reflexivity |]. split; [reflexivity |].
  split; [reflexivity |]. vm_compute. discriminate.
Qed.

(** The generator is lazy: created before an update, it yields the average
    as it is when [next] is called. *)
Example items_generator_is_lazy :
  let g1 := state_of (update [("a"%string, Scalar 2)] __init__) in
  let gen := items g1 in
  let g2 := state_of (update [("a"%string, Scalar 4)] g1) in
  next g1 gen = (Yield ("a"%string, 2%float), Running None 1 1) /\
  next g2 gen = (Yield ("a"%string, 3%float), Running None 1 1) /\
  next g2 (Running None 1 1) = (StopIteration, Finished).
Proof. repeat split; reflexivity. Qed.

Example items_after_new_name :
  let g1 := state_of (update [("b", Scalar 2); ("a", Iterable (Tuple2 8 1))]%string __init__) in
  let g2 := state_of (update [("a", Scalar 4); ("c", Scalar 1); ("b", Scalar 0)]%string g1) in
  drain 2 g1 (items g1) =
    Some ([("b", 2%float); ("a", 8%float)]%string, StopIteration) /\
  drain 3 g2 (items g2) =
    Some ([("b", 1%float); ("a", 6%float); ("c", 1%float)]%string, StopIteration).
Proof. split; reflexivity. Qed.

(** A generator that is suspended in the loop: a new name in the group
    makes the next step raise, unless the last pair had been yielded; after
    a [reset] it goes on through the dictionary that it had started on. *)
Example suspended_generator :
  let g1 := state_of (update [("a", Scalar 2); ("b", Scalar 4)]%string __init__) in
  let gen := snd (next g1 (items g1)) in
  let g2 := state_of (update [("c"%string, Scalar 1)] g1) in
  let g3 := state_of (update [("z"%string, Scalar 9)] (reset g1)) in
  gen = Running None 2 1 /\
  next g2 gen = (RuntimeError, Finished) /\
  next g2 (snd (next g1 gen)) = (StopIteration, Finished) /\
  next g3 (detach g1 gen) =
    (Yield ("b"%string, 4%float), Running (Some (_storage g1)) 2 2) /\
  drain 2 g3 (detach g1 gen) = Some ([("b"%string, 4%float)], StopIteration).
Proof. repeat split; reflexivity. Qed.

Lemma update_entry_well_named (name : string) (value : datum) (self : t) :
  well_named self -> well_named (state_of (update_entry name value self)).
Proof.
  intros Hwn. rewrite update_entry_unfold. cbv zeta.
  unfold well_named. cbn [state_of fst _storage].
  apply Forall_setitem; [exact Hwn |]. cbn [fst snd].
  assert (Hbefore : AverageTracker.name (tracker_before name self) = name).
  { unfold tracker_before.
    destruct (getitem name (_storage self)) as [tracker |] eqn:Hg; [| reflexivity].
    exact (getitem_first _ _ _ _ Hwn Hg). }
  destruct value as [v | []]; unfold state_of in *; cbn [fst lift];
    rewrite ?update_name; try exact Hbefore;
    rewrite <- Hbefore at 2; apply update_name.
Qed.

Lemma update_well_named (data : odict datum) : forall self : t,
  well_named self -> well_named (state_of (update data self)).
Proof.
  induction data as [| [name value] data IH]; intros self Hwn; [exact Hwn |].
  rewrite update_cons.
  pose proof (update_entry_well_named name value self Hwn) as Hstep.
  destruct (result_of (update_entry name value self)); [apply IH |]; exact Hstep.
Qed.

Lemma reachable_well_named (self : t) : reachable self -> well_named self.
Proof.
  induction 1 as [| data self _ IH | self _ _ | item self _ IH | item self _ IH].
  - constructor.
  - apply update_well_named, IH.
  - constructor.
  - unfold __getitem__, bind, get, lift, ret.
    destruct (getitem item (_storage self)); exact IH.
  - unfold __getattr__, bind, get, lift, ret.
    destruct (getitem item (_storage self)); exact IH.
Qed.

(** C8: in every state that a group can reach by construction, updates,
    resets and reads, each key of the storage maps to a tracker, and the
    [name] of that tracker is the key. *)
Theorem stored_tracker_has_its_key (self : t) (key : string) :
  reachable self ->
  In key (keys (_storage self)) ->
  exists tracker : AverageTracker.t,
    getitem key (_storage self) = Return tracker /\
    AverageTracker.name tracker = key.
Proof.
  intros Hreach Hin. apply reachable_well_named in Hreach.
  apply contains_In in Hin.
  destruct (contains_true_getitem _ _ Hin) as [tracker Hg].
  exists tracker. split; [exact Hg |].
  exact (getitem_first _ _ _ _ Hreach Hg).
Qed.

Lemma stored_tracker_has_its_key_witness :
  reachable sample_group /\
  In "b"%string (keys (_storage sample_group)) /\
  exists tracker : AverageTracker.t,
    getitem "b" (_storage sample_group) = Return tracker /\
    AverageTracker.name tracker = "b"%string.
Proof.
  assert (Hreach : reachable sample_group) by (repeat constructor).
  assert (Hin : In "b"%string (keys (_storage sample_group)))
    by (left; reflexivity).
  split; [exact Hreach |]. split; [exact Hin |].
  exact (stored_tracker_has_its_key _ _ Hreach Hin).
Defined.

End GroupFacts.


(** * Further properties of the two classes *)

(** ** More on binary64 arithmetic *)

Section MoreFloatFacts.

Local Open Scope float_scope.

Lemma SFcompare_refl (x : spec_float) :
  x <> S754_nan -> SFcompare x x = Some Eq.
Proof.
  destruct x as [s | s | | s m e]; cbn; intros Hx;
    try destruct s; try reflexivity; try congruence;
    rewrite Z.compare_refl, Pos.compare_cont_refl; reflexivity.
Qed.

Lemma is_nan_spec (x : float) :
  is_nan x = match Prim2SF x with S754_nan => true | _ => false end.
Proof.
  unfold is_nan. rewrite eqb_spec. unfold SFeqb.
  destruct (Prim2SF x) as [s | s | | s m e] eqn:Hx; try reflexivity;
    rewrite SFcompare_refl by discriminate; reflexivity.
Qed.

(** A finite number is a zero or has a mantissa and an exponent. *)
Lemma is_finite_spec (x : float) :
  is_finite x = true ->
  exists s, Prim2SF x = S754_zero s \/ exists m e, Prim2SF x = S754_finite s m e.
Proof.
  unfold is_finite. rewrite is_nan_spec, is_infinity_spec.
  destruct (Prim2SF x) as [s | s | | s m e]; try discriminate; intros _;
    exists s; [left | right; exists m, e]; reflexivity.
Qed.

(** A finite number times zero is a zero. *)
Lemma mul_zero_is_zero (x : float) :
  is_finite x = true -> is_zero (x * 0) = true.
Proof.
  intros Hx. rewrite is_zero_spec, mul_spec, Prim2SF_zero.
  destruct (is_finite_spec x Hx) as [s [-> | (m & e & ->)]]; reflexivity.
Qed.

(** Adding a zero to a number that is not a zero gives that number. *)
Lemma add_zero_nonzero (x z : float) :
  is_zero x = false -> is_zero z = true -> x + z = x.
Proof.
  rewrite !is_zero_spec. intros Hx Hz. apply Prim2SF_inj. rewrite add_spec.
  destruct (Prim2SF z) as [sz | | | ]; try discriminate.
  destruct (Prim2SF x) as [s | s | | s m e]; try discriminate; reflexivity.
Qed.

(** Adding two zeros gives a zero. *)
Lemma add_zero_zero (x z : float) :
  is_zero x = true -> is_zero z = true -> is_zero (x + z) = true.
Proof.
  rewrite !is_zero_spec, add_spec. intros Hx Hz.
  destruct (Prim2SF z) as [sz | | | ]; try discriminate.
  destruct (Prim2SF x) as [s | | | ]; try discriminate.
  destruct s, sz; reflexivity.
Qed.

End MoreFloatFacts.

(** ** More on [AverageTracker] *)

Section MoreTrackerFacts.

Import AverageTracker.
Local Open Scope float_scope.

(** X1: a weight beyond the range of a float makes [update] raise
    [OverflowError] at [value * n]: [val] has been assigned, [sum], [count]
    and [avg] are as before. *)
Theorem update_out_of_range_weight (value : float) (n : Z) (self : t) :
  float_of_int n = Raise OverflowError ->
  update value n self =
    (mk (name self) value (sum self) (count self) (avg self),
     Raise OverflowError).
Proof.
  intros Hn. apply update_overflow.
  unfold float_of_int in Hn.
  destruct (is_infinity (nearest_float n)); [reflexivity | discriminate].
Qed.

Lemma update_out_of_range_weight_witness :
  float_of_int (2 ^ 1024) = Raise OverflowError /\
  update 5 (2 ^ 1024) (mk "loss" 2 6 3 2) =
    (mk "loss" 5 6 3 2, Raise OverflowError).
Proof.
  split; [reflexivity |].
  apply (update_out_of_range_weight 5 (2 ^ 1024)%Z (mk "loss" 2 6 3 2)).
  reflexivity.
Defined.

(** X2: whatever the arguments and whether it returns or raises, [update]
    assigns [val], keeps [name], and raises nothing but
    [ZeroDivisionError] and [OverflowError]. *)
Theorem update_always_sets_val (value : float) (n : Z) (self : t) :
  val (state_of (update value n self)) = value /\
  name (state_of (update value n self)) = name self /\
  (result_of (update value n self) = Return tt \/
   result_of (update value n self) = Raise ZeroDivisionError \/
   result_of (update value n self) = Raise OverflowError).
Proof.
  split; [| split; [apply update_name |]];
    destruct (is_infinity (nearest_float n)) eqn:Hn.
  - rewrite update_overflow by assumption. reflexivity.
  - rewrite update_in_range by assumption. cbv zeta.
    destruct (is_zero _); reflexivity.
  - rewrite update_overflow by assumption. auto.
  - rewrite update_in_range by assumption. cbv zeta.
    destruct (is_zero _); auto.
Qed.

(** X3: when [update] returns, the weight was within range, the new
    [count] is not a zero, all four attributes have been assigned and
    [avg] is [sum / count] of the new totals. *)
Theorem update_returns_with_average
    (value : float) (n : Z) (self self' : t) :
  update value n self = (self', Return tt) ->
  exists n' : float,
    float_of_int n = Return n' /\
    self' = mk (name self) value (sum self + value * n') (count self + n')
               ((sum self + value * n') / (count self + n')) /\
    is_zero (count self') = false /\
    avg self' = sum self' / count self'.
Proof.
  intros Hrun. destruct (is_infinity (nearest_float n)) eqn:Hn.
  - rewrite update_overflow in Hrun by assumption. discriminate.
  - exists (nearest_float n).
    rewrite (float_of_int_in_range n Hn).
    rewrite update_in_range in Hrun by assumption. cbv zeta in Hrun.
    destruct (is_zero (count self + nearest_float n)) eqn:Hz;
      [discriminate |].
    injection Hrun as <-. cbn [count sum avg].
    repeat split; [exact Hz].
Qed.

Lemma update_returns_with_average_witness :
  update 8 1 (mk "a" 2 6 3 2) = (mk "a" 8 14 4 3.5, Return tt) /\
  exists n' : float,
    float_of_int 1 = Return n' /\
    mk "a" 8 14 4 3.5 = mk "a" 8 (6 + 8 * n') (3 + n') ((6 + 8 * n') / (3 + n')) /\
    is_zero (count (mk "a" 8 14 4 3.5)) = false /\
    avg (mk "a" 8 14 4 3.5) = sum (mk "a" 8 14 4 3.5) / count (mk "a" 8 14 4 3.5).
Proof.
  assert (Hrun : update 8 1 (mk "a" 2 6 3 2) = (mk "a" 8 14 4 3.5, Return tt))
    by reflexivity.
  split; [exact Hrun |].
  exact (update_returns_with_average 8 1%Z (mk "a" 2 6 3 2) (mk "a" 8 14 4 3.5) Hrun).
Defined.

(** X4: an update with weight 0 and a finite value on a tracker whose
    [count] is not a zero returns; it leaves [count] as it is and [sum] as
    it is (up to the sign of a zero [sum]), assigns [val] and recomputes
    [avg] from them. *)
Theorem zero_weight_update_keeps_totals (value : float) (self : t) :
  is_finite value = true ->
  is_zero (count self) = false ->
  exists s' : float,
    update value 0 self =
      (mk (name self) value s' (count self) (s' / count self), Return tt) /\
    (s' = sum self \/ (is_zero s' = true /\ is_zero (sum self) = true)).
Proof.
  intros Hv Hc. exists (sum self + value * 0).
  assert (Hcount : count self + 0 = count self)
    by (apply add_zero_nonzero; [exact Hc | reflexivity]).
  split.
  - rewrite update_in_range by reflexivity. cbv zeta.
    change (nearest_float 0) with 0. rewrite Hcount, Hc. reflexivity.
  - pose proof (mul_zero_is_zero value Hv) as Hz.
    destruct (is_zero (sum self)) eqn:Hs.
    + right. split; [apply add_zero_zero; assumption | reflexivity].
    + left. apply add_zero_nonzero; assumption.
Qed.

Lemma zero_weight_update_keeps_totals_witness :
  is_finite 5 = true /\
  is_zero (count (mk "a" 2 6 3 2)) = false /\
  exists s' : float,
    update 5 0 (mk "a" 2 6 3 2) = (mk "a" 5 s' 3 (s' / 3), Return tt) /\
    (s' = 6 \/ (is_zero s' = true /\ is_zero 6 = true)).
Proof.
  split; [reflexivity |]. split; [reflexivity |].
  apply (zero_weight_update_keeps_totals 5 (mk "a" 2 6 3 2)); reflexivity.
Defined.

End MoreTrackerFacts.

(** ** More dictionary and string facts *)

Section MoreOrderedDictFacts.

Context {V : Type}.
Implicit Types (d : odict V) (key : string) (v : V).

Lemma setitem_same key v d : getitem key d = Return v -> setitem key v d = d.
Proof.
  induction d as [| [k w] d IH]; cbn; [discriminate |].
  destruct (String.eqb k key); [intros [= ->]; reflexivity |].
  intros H. rewrite IH by exact H. reflexivity.
Qed.

Lemma NoDup_keys_setitem key v d :
  NoDup (keys d) -> NoDup (keys (setitem key v d)).
Proof.
  intros Hd. rewrite keys_setitem.
  destruct (contains key d) eqn:Hc; [exact Hd |].
  apply NoDup_app; [exact Hd | repeat constructor; intros [] |].
  intros k Hk [<- | []].
  apply contains_In in Hk. congruence.
Qed.

Lemma getitem_In_NoDup key v d :
  NoDup (keys d) -> In (key, v) d -> getitem key d = Return v.
Proof.
  induction d as [| [k w] d IH]; intros Hd Hin; [destruct Hin |].
  cbn [keys map fst] in Hd. apply NoDup_cons_iff in Hd as [Hk Hd].
  cbn [getitem]. destruct Hin as [[= -> ->] | Hin].
  - rewrite String.eqb_refl. reflexivity.
  - assert (Hne : String.eqb k key = false).
    { apply String.eqb_neq. intros ->. apply Hk.
      apply (in_map fst) in Hin. exact Hin. }
    rewrite Hne. apply IH; assumption.
Qed.

Lemma getitem_Return_In key v d : getitem key d = Return v -> In (key, v) d.
Proof.
  induction d as [| [k w] d IH]; cbn [getitem]; [discriminate |].
  destruct (String.eqb k key) eqn:Hk.
  - apply String.eqb_eq in Hk. subst k. intros [= ->]. left. reflexivity.
  - intros H. right. apply IH, H.
Qed.

End MoreOrderedDictFacts.

Section StringFacts.

Local Open Scope string_scope.

Lemma append_assoc (a b c : string) : (a ++ b) ++ c = a ++ (b ++ c).
Proof. induction a as [| ch a IH]; cbn; [reflexivity | rewrite IH; reflexivity]. Qed.

(** Joining one more string: it goes last, after a separator unless it is
    the only one. *)
Lemma concat_snoc (sep x : string) (l : list string) :
  String.concat sep (l ++ [x]) =
  match l with
  | [] => x
  | _ :: _ => String.concat sep l ++ sep ++ x
  end.
Proof.
  induction l as [| y l IH]; [reflexivity |].
  destruct l as [| z l]; [reflexivity |].
  change (String.concat sep ((y :: z :: l) ++ [x]))
    with (y ++ sep ++ String.concat sep ((z :: l) ++ [x])).
  rewrite IH.
  change (String.concat sep (y :: z :: l))
    with (y ++ sep ++ String.concat sep (z :: l)).
  rewrite !append_assoc. reflexivity.
Qed.

End StringFacts.

(** ** More on [AverageTrackerGroup] *)

Section MoreGroupFacts.

Import AverageTrackerGroup.

Lemma tracker_update_result (value : float) (n : Z) (tracker : AverageTracker.t) :
  result_of (AverageTracker.update value n tracker) = Return tt \/
  result_of (AverageTracker.update value n tracker) = Raise ZeroDivisionError \/
  result_of (AverageTracker.update value n tracker) = Raise OverflowError.
Proof.
  destruct (is_infinity (nearest_float n)) eqn:Hn.
  - rewrite update_overflow by assumption. auto.
  - rewrite update_in_range by assumption. cbv zeta.
    destruct (is_zero _); auto.
Qed.

Lemma update_entry_result (name : string) (value : datum) (self : t) :
  result_of (update_entry name value self) = Return tt \/
  result_of (update_entry name value self) = Raise ZeroDivisionError \/
  result_of (update_entry name value self) = Raise OverflowError \/
  result_of (update_entry name value self) = Raise TypeError.
Proof.
  rewrite update_entry_unfold. cbv zeta.
  unfold result_of at 1 2 3 4. cbn [snd].
  destruct value as [v | [| v | v n | v n third rest]];
    try (right; right; right; reflexivity);
    match goal with
    | |- context [AverageTracker.update ?v ?n ?t] =>
      destruct (tracker_update_result v n t) as [H | [H | H]]; rewrite H; auto
    end.
Qed.

(** One call with [d1] followed by [d2] is the call with [d1] and then,
    if that returned, the call with [d2]. *)
Lemma update_app (d1 d2 : odict datum) : forall self : t,
  update (d1 ++ d2) self =
  match update d1 self with
  | (self1, Return _) => update d2 self1
  | (self1, Raise e) => (self1, Raise e)
  end.
Proof.
  induction d1 as [| [name value] d1 IH]; intros self; [reflexivity |].
  cbn [app]. rewrite !update_cons.
  destruct (result_of (update_entry name value self)); [apply IH | reflexivity].
Qed.

Lemma update_single (name : string) (value : datum) (self : t) :
  update [(name, value)] self = update_entry name value self.
Proof.
  rewrite update_cons. unfold result_of, state_of.
  destruct (update_entry name value self) as [self' [[] | e]]; reflexivity.
Qed.

(** C3, as the code has it: [update(data)] serves the names of [data] in
    order, and an entry is reached when the entries before it were applied
    without raising, which is the case for every entry of a call that
    returns.  For an entry that is reached: when the name is not in
    storage, a new zero tracker is stored under it first; then a plain
    number [v] reaches the tracker as [update(v)] with the default weight
    [n = 1] and a tuple [(v, n)] as [update(v, n)]; the tracker is stored
    as that call left it; when the call returned the loop goes on with the
    rest of [data], and when it raised (or the tuple did not fit) the
    whole call raises that exception there. *)
Theorem update_serves_each_reached_name
    (d1 d2 : odict datum) (name : string) (value : datum) (self : t) :
  (forall self' : t,
     update (d1 ++ (name, value) :: d2) self = (self', Return tt) ->
     exists self1 : t, update d1 self = (self1, Return tt)) /\
  (forall self1 : t,
     update d1 self = (self1, Return tt) ->
     let before :=
       match getitem name (_storage self1) with
       | Return tracker => tracker
       | Raise _ => AverageTracker.mk name 0 0 0 0
       end in
     let served :=
       match value with
       | Scalar v | Iterable (Tuple1 v) => AverageTracker.update v 1 before
       | Iterable (Tuple2 v n) => AverageTracker.update v n before
       | Iterable Tuple0 | Iterable (TupleN _ _ _ _) => (before, Raise TypeError)
       end in
     let self2 := mk (setitem name (state_of served) (_storage self1)) in
     getitem name (_storage self2) = Return (state_of served) /\
     (contains name (_storage self1) = false ->
      _storage self2 = _storage self1 ++ [(name, state_of served)]) /\
     match result_of served with
     | Return _ => update (d1 ++ (name, value) :: d2) self = update d2 self2
     | Raise e => update (d1 ++ (name, value) :: d2) self = (self2, Raise e)
     end).
Proof.
  split.
  - intros self' Hrun. rewrite update_app in Hrun.
    destruct (update d1 self) as [self1 [[] | e]]; [| discriminate].
    exists self1. reflexivity.
  - intros self1 Hd1. cbv zeta.
    split; [apply getitem_setitem_eq |]. split; [intros Hc; apply setitem_new, Hc |].
    rewrite update_app, Hd1, update_cons, update_entry_unfold. cbv zeta.
    change (AverageTracker.__init__ name) with (AverageTracker.mk name 0 0 0 0).
    unfold tracker_before.
    change (AverageTracker.__init__ name) with (AverageTracker.mk name 0 0 0 0).
    destruct value as [v | [| v | v n | v n third rest]];
      unfold lift; cbn [result_of state_of fst snd];
      try reflexivity;
      match goal with
      | |- context [AverageTracker.update ?v ?n ?b] =>
        destruct (AverageTracker.update v n b) as [after [[] | e]]; reflexivity
      end.
Qed.

Lemma update_serves_each_reached_name_witness :
  let self1 := state_of (update [("a"%string, Iterable (Tuple2 2 3))] __init__) in
  let self2 := state_of (update [("b"%string, Scalar 4)] self1) in
  update [("a"%string, Iterable (Tuple2 2 3))] __init__ = (self1, Return tt) /\
  getitem "b" (_storage self2) = Return (AverageTracker.mk "b" 4 4 1 4) /\
  _storage self2 = _storage self1 ++ [("b"%string, AverageTracker.mk "b" 4 4 1 4)] /\
  update ([("a"%string, Iterable (Tuple2 2 3))] ++
          ("b"%string, Scalar 4) :: [("a"%string, Iterable (Tuple2 8 1))]) __init__ =
  update [("a"%string, Iterable (Tuple2 8 1))] self2.
Proof.
  cbv zeta.
  assert (Hd1 : update [("a"%string, Iterable (Tuple2 2 3))] __init__ =
                (state_of (update [("a"%string, Iterable (Tuple2 2 3))] __init__),
                 Return tt)) by reflexivity.
  split; [exact Hd1 |].
  destruct (proj2 (update_serves_each_reached_name
                     [("a"%string, Iterable (Tuple2 2 3))]
                     [("a"%string, Iterable (Tuple2 8 1))]
                     "b" (Scalar 4) __init__) _ Hd1) as (Hget & Hnew & Hgo).
  split; [exact Hget |]. split; [apply Hnew; reflexivity |]. exact Hgo.
Defined.

(** C3 fails on the code for a name that comes after an entry that raises:
    the first entry leaves [count] at 0 and raises, and [b], a name of
    [data], is neither created nor updated. *)
Lemma name_after_raising_entry_is_not_served :
  let data := [("a", Iterable (Tuple2 1 0)); ("b", Scalar 2)]%string in
  In ("b"%string, Scalar 2) data /\
  result_of (update data __init__) = Raise ZeroDivisionError /\
  keys (_storage (state_of (update data __init__))) = ["a"%string] /\
  contains "b" (_storage (state_of (update data __init__))) = false.
Proof.
  cbv zeta. split; [right; left; reflexivity |]. repeat split; reflexivity.
Qed.

Lemma update_contains_mono (data : odict datum) (self : t) (name : string) :
  contains name (_storage self) = true ->
  contains name (_storage (state_of (update data self))) = true.
Proof.
  intros Hc. destruct (update_keys data self) as (k & _ & Hkeys & _).
  apply contains_In. rewrite Hkeys. apply in_or_app. left.
  apply contains_In. exact Hc.
Qed.

Lemma update_entry_contains (name : string) (value : datum) (self : t) :
  contains name (_storage (state_of (update_entry name value self))) = true.
Proof.
  apply contains_In. rewrite update_entry_keys.
  destruct (contains name (_storage self)) eqn:Hc.
  - apply contains_In. exact Hc.
  - apply in_or_app. right. left. reflexivity.
Qed.

Lemma getitem_read (item : string) (self : t) (tracker : AverageTracker.t) :
  getitem item (_storage self) = Return tracker ->
  __getitem__ item self = (self, Return (AverageTracker.avg tracker)).
Proof.
  intros Hg. unfold __getitem__, bind, get, lift, ret. rewrite Hg. reflexivity.
Qed.

Lemma update_NoDup (data : odict datum) : forall self : t,
  NoDup (keys (_storage self)) ->
  NoDup (keys (_storage (state_of (update data self)))).
Proof.
  induction data as [| [name value] data IH]; intros self Hd; [exact Hd |].
  rewrite update_cons.
  assert (Hstep : NoDup (keys (_storage (state_of (update_entry name value self))))).
  { rewrite update_entry_unfold. cbv zeta. cbn [state_of fst _storage].
    apply NoDup_keys_setitem, Hd. }
  destruct (result_of (update_entry name value self)); [apply IH |]; exact Hstep.
Qed.

Lemma reachable_NoDup (self : t) :
  reachable self -> NoDup (keys (_storage self)).
Proof.
  induction 1 as [| data self _ IH | self _ _ | item self _ IH | item self _ IH].
  - constructor.
  - apply update_NoDup, IH.
  - constructor.
  - unfold __getitem__, bind, get, lift, ret.
    destruct (getitem item (_storage self)); exact IH.
  - unfold __getattr__, bind, get, lift, ret.
    destruct (getitem item (_storage self)); exact IH.
Qed.

(** X5: a call of [update] with the entries of [d1] followed by those of
    [d2] does what two calls do, the first with [d1] and the second with
    [d2], when the first returns; when the first raises, the one call stops
    in the same state with the same exception. *)
Theorem update_concatenated_data (d1 d2 : odict datum) (self : t) :
  (forall self1 : t,
     update d1 self = (self1, Return tt) ->
     update (d1 ++ d2) self = update d2 self1) /\
  (forall (self1 : t) (e : exn),
     update d1 self = (self1, Raise e) ->
     update (d1 ++ d2) self = (self1, Raise e)).
Proof.
  split; intros self1; [| intros e]; intros H; rewrite update_app, H; reflexivity.
Qed.

(** X6: when the call for one entry raises, a call of [update] in which
    that entry comes after entries that were applied stops there with that
    exception: the entries after it are not applied, the ones before it
    stay applied. *)
Theorem update_stops_at_failing_entry
    (d1 d2 : odict datum) (name : string) (value : datum)
    (self self1 self2 : t) (e : exn) :
  update d1 self = (self1, Return tt) ->
  update [(name, value)] self1 = (self2, Raise e) ->
  update (d1 ++ (name, value) :: d2) self = (self2, Raise e).
Proof.
  intros H1 H2. rewrite update_app, H1.
  change ((name, value) :: d2) with ([(name, value)] ++ d2).
  rewrite update_app, H2. reflexivity.
Qed.

Lemma update_stops_at_failing_entry_witness :
  let d1 := [("a"%string, Scalar 2)] in
  let d2 := [("c"%string, Scalar 7)] in
  let self1 := state_of (update d1 __init__) in
  let self2 := state_of (update [("b"%string, Iterable (Tuple2 1 0))] self1) in
  update d1 __init__ = (self1, Return tt) /\
  update [("b"%string, Iterable (Tuple2 1 0))] self1 = (self2, Raise ZeroDivisionError) /\
  update (d1 ++ ("b"%string, Iterable (Tuple2 1 0)) :: d2) __init__ =
    (self2, Raise ZeroDivisionError) /\
  keys (_storage self2) = ["a"; "b"]%string.
Proof.
  cbv zeta. split; [reflexivity |]. split; [reflexivity |].
  split; [| reflexivity].
  apply (update_stops_at_failing_entry
           [("a"%string, Scalar 2)] [("c"%string, Scalar 7)]
           "b" (Iterable (Tuple2 1 0)) __init__
           (state_of (update [("a"%string, Scalar 2)] __init__))); reflexivity.
Defined.

(** X7: [update] does not touch the trackers of the names that are not in
    [data]: reading such a name gives the same result before and after,
    whether the call returned or raised. *)
Theorem update_leaves_other_names (data : odict datum) (self : t) (key : string) :
  ~ In key (keys data) ->
  getitem key (_storage (state_of (update data self))) = getitem key (_storage self) /\
  result_of (__getitem__ key (state_of (update data self))) =
  result_of (__getitem__ key self).
Proof.
  intros Hnot. pose proof (update_getitem_other data self key Hnot) as Hg.
  split; [exact Hg |].
  unfold __getitem__, bind, get, lift, ret. rewrite Hg.
  destruct (getitem key (_storage self)); reflexivity.
Qed.

Lemma update_leaves_other_names_witness :
  let self := state_of (update sample_data __init__) in
  let data := [("b", Scalar 1); ("c", Iterable (Tuple2 1 0))]%string in
  ~ In "a"%string (keys data) /\
  getitem "a" (_storage (state_of (update data self))) = getitem "a" (_storage self) /\
  result_of (__getitem__ "a" (state_of (update data self))) =
  result_of (__getitem__ "a" self).
Proof.
  cbv zeta.
  assert (Hnot : ~ In "a"%string (keys [("b", Scalar 1); ("c", Iterable (Tuple2 1 0))]%string))
    by (cbn; intuition discriminate).
  split; [exact Hnot |].
  exact (update_leaves_other_names _ (state_of (update sample_data __init__)) "a" Hnot).
Defined.

(** X8: after a call of [update] that returned, every name of [data] can
    be read: indexing returns the average of the tracker stored under it
    and does not raise; an attribute read returns that average too, unless
    the ordinary lookup finds the name (a name such as [update]), which
    then gives the attribute that it found.  The group is as before. *)
Theorem updated_names_can_be_read (data : odict datum) : forall (self self' : t) (name : string),
  update data self = (self', Return tt) ->
  In name (keys data) ->
  exists tracker : AverageTracker.t,
    getitem name (_storage self') = Return tracker /\
    __getitem__ name self' = (self', Return (AverageTracker.avg tracker)) /\
    forall inherited : list string,
      getattr inherited name self' =
      (self',
       Return match ordinary_lookup inherited name self' with
              | Some a => a
              | None => Average (AverageTracker.avg tracker)
              end).
Proof.
  intros self self' name Hrun Hin.
  assert (Hc : contains name (_storage self') = true).
  { revert self Hrun.
    induction data as [| [k value] data IH]; intros self Hrun; [destruct Hin |].
    rewrite update_cons in Hrun.
    destruct (result_of (update_entry k value self)) as [[] | e]; [| discriminate].
    destruct Hin as [Hk | Hin]; [| exact (IH Hin _ Hrun)].
    cbn [fst] in Hk. subst k.
    replace self' with (state_of (update data (state_of (update_entry name value self))))
      by (rewrite Hrun; reflexivity).
    apply update_contains_mono, update_entry_contains. }
  destruct (contains_true_getitem _ _ Hc) as [tracker Hg].
  exists tracker. split; [exact Hg |].
  split; [apply getitem_read, Hg |].
  intros inherited. rewrite getattr_unfold, Hg.
  destruct (ordinary_lookup inherited name self'); reflexivity.
Qed.

Lemma updated_names_can_be_read_witness :
  let data := [("b", Scalar 4); ("update", Scalar 2)]%string in
  let self' := state_of (update data __init__) in
  update data __init__ = (self', Return tt) /\
  In "b"%string (keys data) /\
  In "update"%string (keys data) /\
  __getitem__ "b" self' = (self', Return 4%float) /\
  getattr object_attributes "b" self' = (self', Return (Average 4)) /\
  __getitem__ "update" self' = (self', Return 2%float) /\
  getattr object_attributes "update" self' = (self', Return (BoundMethod "update")).
Proof.
  cbv zeta.
  assert (Hrun : update [("b", Scalar 4); ("update", Scalar 2)]%string __init__ =
                 (state_of (update [("b", Scalar 4); ("update", Scalar 2)]%string __init__),
                  Return tt))
    by reflexivity.
  assert (Hb : In "b"%string (keys [("b", Scalar 4); ("update", Scalar 2)]%string))
    by (left; reflexivity).
  assert (Hu : In "update"%string (keys [("b", Scalar 4); ("update", Scalar 2)]%string))
    by (right; left; reflexivity).
  split; [exact Hrun |]. split; [exact Hb |]. split; [exact Hu |].
  destruct (updated_names_can_be_read _ _ _ "b" Hrun Hb)
    as (tb & Hgb & Hib & Hab).
  destruct (updated_names_can_be_read _ _ _ "update" Hrun Hu)
    as (tu & Hgu & Hiu & Hau).
  injection Hgb as <-. injection Hgu as <-.
  split; [exact Hib |]. split; [exact (Hab object_attributes) |].
  split; [exact Hiu |]. exact (Hau object_attributes).
Defined.

(** X9: indexing returns exactly for the names in storage, with the [avg]
    of the stored tracker; the only exception that it raises is the
    [KeyError] of the name asked for; the group is the same afterwards in
    both cases. *)
Theorem getitem_returns_iff_stored (self : t) (item : string) :
  (contains item (_storage self) = true ->
   exists tracker : AverageTracker.t,
     getitem item (_storage self) = Return tracker /\
     __getitem__ item self = (self, Return (AverageTracker.avg tracker))) /\
  (forall x : float,
     result_of (__getitem__ item self) = Return x ->
     contains item (_storage self) = true) /\
  (forall e : exn,
     result_of (__getitem__ item self) = Raise e ->
     e = KeyError item /\ contains item (_storage self) = false) /\
  state_of (__getitem__ item self) = self.
Proof.
  unfold __getitem__, bind, get, lift, ret, result_of, state_of.
  destruct (contains item (_storage self)) eqn:Hc.
  - destruct (contains_true_getitem _ _ Hc) as [tracker Hg]. rewrite Hg.
    cbn [fst snd]. split; [| split; [| split]].
    + intros _. exists tracker. split; reflexivity.
    + reflexivity.
    + discriminate.
    + reflexivity.
  - rewrite (contains_false_getitem _ _ Hc).
    cbn [fst snd]. split; [| split; [| split]].
    + discriminate.
    + discriminate.
    + intros err [= <-]. split; reflexivity.
    + reflexivity.
Qed.

(** X11: in every state that a group can reach, iteration and indexing
    agree: the pairs that [items()] yields are exactly the names that can
    be read, each with the value that indexing returns. *)
Theorem items_agree_with_getitem (self : t) (name : string) (x : float) :
  reachable self ->
  (In (name, x) (listing self) <-> __getitem__ name self = (self, Return x)).
Proof.
  intros Hreach. apply reachable_NoDup in Hreach. split.
  - intros Hin. unfold listing in Hin.
    apply in_map_iff in Hin as ([k tracker] & [= -> <-] & Hin).
    apply getitem_read. apply getitem_In_NoDup; assumption.
  - unfold __getitem__, bind, get, lift, ret.
    destruct (getitem name (_storage self)) as [tracker |] eqn:Hg; [| discriminate].
    intros [= <-]. apply getitem_Return_In in Hg.
    unfold listing. apply in_map_iff. exists (name, tracker). split; [reflexivity | exact Hg].
Qed.

Lemma items_agree_with_getitem_witness :
  reachable sample_group /\
  (In ("b"%string, 1%float) (listing sample_group) <->
   __getitem__ "b" sample_group = (sample_group, Return 1%float)).
Proof.
  assert (Hreach : reachable sample_group) by (repeat constructor).
  split; [exact Hreach |].
  exact (items_agree_with_getitem sample_group "b" 1%float Hreach).
Defined.

(** X12: [update] never raises [KeyError]: the tracker that it calls has
    been put in storage just before; what it raises is what the call on a
    tracker raises, [ZeroDivisionError] or [OverflowError], or the
    [TypeError] of a tuple that does not fit the parameters. *)
Theorem update_raises_no_KeyError (data : odict datum) : forall self : t,
  result_of (update data self) = Return tt \/
  result_of (update data self) = Raise ZeroDivisionError \/
  result_of (update data self) = Raise OverflowError \/
  result_of (update data self) = Raise TypeError.
Proof.
  induction data as [| [name value] data IH]; intros self; [left; reflexivity |].
  rewrite update_cons.
  destruct (update_entry_result name value self) as [H | [H | [H | H]]];
    rewrite H; [apply IH | | |]; auto.
Qed.

(** X13: a tuple with no element or with more than two makes [update]
    raise [TypeError] and leave the entries after it unapplied; the name
    has been looked up before, so a name that was unknown is now stored
    with a zero tracker, and a known name keeps its tracker as it was. *)
Theorem update_with_misfit_tuple (self : t) (name : string) (rest : odict datum) :
  let after :=
    if contains name (_storage self) then self
    else mk (_storage self ++ [(name, AverageTracker.mk name 0 0 0 0)]) in
  update ((name, Iterable Tuple0) :: rest) self = (after, Raise TypeError) /\
  (forall (v : float) (n third : Z) (more : list Z),
     update ((name, Iterable (TupleN v n third more)) :: rest) self =
     (after, Raise TypeError)).
Proof.
  cbv zeta.
  assert (Hstore :
    mk (setitem name (tracker_before name self) (_storage self)) =
    if contains name (_storage self) then self
    else mk (_storage self ++ [(name, AverageTracker.mk name 0 0 0 0)])).
  { unfold tracker_before. destruct (contains name (_storage self)) eqn:Hc.
    - destruct (contains_true_getitem _ _ Hc) as [tracker Hg].
      rewrite Hg, (setitem_same _ _ _ Hg). destruct self. reflexivity.
    - rewrite (contains_false_getitem _ _ Hc), (setitem_new _ _ _ Hc).
      reflexivity. }
  split; [| intros v n third more];
    rewrite update_cons, update_entry_unfold; cbv zeta;
    unfold result_of, state_of, lift; cbn [fst snd];
    rewrite Hstore; reflexivity.
Qed.

(** X14: the first update of a name appends the rendering of its tracker
    to the rendering of the group, after a space unless the group was
    empty; [__repr__] is [__str__] behind the label. *)
Theorem new_name_is_rendered_last (self : t) (name : string) (value : datum) :
  contains name (_storage self) = false ->
  let self' := state_of (update [(name, value)] self) in
  exists tracker : AverageTracker.t,
    getitem name (_storage self') = Return tracker /\
    __str__ self' =
      match _storage self with
      | [] => AverageTracker.__str__ tracker
      | _ :: _ => __str__ self ++ " " ++ AverageTracker.__str__ tracker
      end%string /\
    __repr__ self' = ("Metric Group: " ++ __str__ self')%string.
Proof.
  intros Hc. cbv zeta. rewrite update_single, update_entry_unfold. cbv zeta.
  cbn [state_of fst _storage].
  eexists. split; [apply getitem_setitem_eq |]. split; [| reflexivity].
  unfold __str__. cbn [_storage].
  rewrite (setitem_new _ _ _ Hc), map_app. cbn [map snd].
  rewrite concat_snoc.
  destruct (_storage self) as [| kv d]; reflexivity.
Qed.

Lemma new_name_is_rendered_last_witness :
  let self := state_of (update sample_data __init__) in
  let self' := state_of (update [("c"%string, Scalar 1.23456)] self) in
  contains "c" (_storage self) = false /\
  exists tracker : AverageTracker.t,
    getitem "c" (_storage self') = Return tracker /\
    __str__ self' =
      match _storage self with
      | [] => AverageTracker.__str__ tracker
      | _ :: _ => __str__ self ++ " " ++ AverageTracker.__str__ tracker
      end%string /\
    __repr__ self' = ("Metric Group: " ++ __str__ self')%string.
Proof.
  cbv zeta. split; [reflexivity |].
  apply (new_name_is_rendered_last
           (state_of (update sample_data __init__)) "c" (Scalar 1.23456)).
  reflexivity.
Defined.

Example group_rendering :
  __repr__ (state_of (update [("c"%string, Scalar 1.23456)]
                        (state_of (update sample_data __init__)))) =
  "Metric Group: a 2.0000 (2.0000) b 4.0000 (4.0000) c 1.2346 (1.2346)"%string.
Proof. reflexivity. Qed.

Lemma run_group_updates_snoc name calls c self :
  run_group_updates name (calls ++ [c]) self =
  state_of (update [(name, Iterable (Tuple2 (fst c) (snd c)))]
              (run_group_updates name calls self)).
Proof. unfold run_group_updates. rewrite fold_left_app. reflexivity. Qed.

(** The tracker of [name] in the group goes through the same states as a
    tracker of its own that receives the same calls. *)
Lemma run_group_updates_tracker (name : string) (calls : list (float * Z)) :
  tracker_before name (run_group_updates name calls __init__) =
  run_updates calls (AverageTracker.__init__ name) /\
  keys (_storage (run_group_updates name calls __init__)) =
  match calls with [] => [] | _ :: _ => [name] end.
Proof.
  induction calls as [| [v n] calls IH] using rev_ind; [split; reflexivity |].
  destruct IH as [IHt IHk].
  rewrite run_group_updates_snoc, run_updates_snoc, update_single.
  cbn [fst snd]. split.
  - unfold tracker_before at 1. rewrite update_entry_unfold. cbv zeta.
    cbn [state_of fst _storage]. rewrite getitem_setitem_eq, IHt. reflexivity.
  - rewrite update_entry_keys, contains_keys, IHk.
    destruct calls as [| c calls]; cbn [app existsb].
    + reflexivity.
    + rewrite String.eqb_refl. cbn [orb].
      destruct (calls ++ [(v, n)]) eqn:Happ; [| reflexivity].
      apply app_eq_nil in Happ as [_ Hnil]. discriminate.
Qed.

Lemma run_updates_avg (name : string) (calls : list (float * Z)) (value : float) (n : Z) :
  Forall (fun c => in_float_range (snd c)) (calls ++ [(value, n)]) ->
  (0 <? weight_total (calls ++ [(value, n)]))%float = true ->
  AverageTracker.avg (run_updates (calls ++ [(value, n)]) (AverageTracker.__init__ name)) =
  (weighted_total (calls ++ [(value, n)]) / weight_total (calls ++ [(value, n)]))%float.
Proof.
  intros Hall Hpos.
  destruct (run_updates_totals _ (AverageTracker.__init__ name) Hall) as [Hs Hc].
  change (AverageTracker.sum
            (run_updates (calls ++ [(value, n)]) (AverageTracker.__init__ name)) =
          weighted_total (calls ++ [(value, n)])) in Hs.
  change (AverageTracker.count
            (run_updates (calls ++ [(value, n)]) (AverageTracker.__init__ name)) =
          weight_total (calls ++ [(value, n)])) in Hc.
  rewrite <- Hs, <- Hc. rewrite <- Hc in Hpos. clear Hs Hc.
  apply Forall_app in Hall as [_ Hn].
  apply Forall_cons_iff in Hn as [Hn _]. cbn [snd] in Hn.
  rewrite run_updates_snoc in *. cbn [fst snd] in *.
  rewrite update_in_range in * by assumption. cbv zeta in *.
  destruct (is_zero _) eqn:Hz;
    cbn [state_of fst AverageTracker.count AverageTracker.sum AverageTracker.avg] in *;
    [| reflexivity].
  apply positive_not_zero in Hpos. congruence.
Qed.

(** X15: a group that is only ever updated under one name with weighted
    values holds, under that name alone, a tracker in the state of a
    tracker of its own that received the same calls; indexing returns the
    [avg] of that tracker. *)
Theorem group_wraps_tracker
    (name : string) (calls : list (float * Z)) (value : float) (n : Z) :
  let self := run_group_updates name (calls ++ [(value, n)]) __init__ in
  let tracker := run_updates (calls ++ [(value, n)]) (AverageTracker.__init__ name) in
  _storage self = [(name, tracker)] /\
  __getitem__ name self = (self, Return (AverageTracker.avg tracker)).
Proof.
  cbv zeta.
  destruct (run_group_updates_tracker name (calls ++ [(value, n)])) as [Ht Hk].
  assert (Hk' : keys (_storage (run_group_updates name (calls ++ [(value, n)]) __init__)) = [name]).
  { rewrite Hk. destruct (calls ++ [(value, n)]) eqn:Happ; [| reflexivity].
    apply app_eq_nil in Happ as [_ Hnil]. discriminate. }
  clear Hk. unfold tracker_before in Ht.
  destruct (_storage (run_group_updates name (calls ++ [(value, n)]) __init__))
    as [| [k tracker] [| kv d]] eqn:Hst; try discriminate.
  cbn [keys map fst] in Hk'. injection Hk' as ->.
  cbn [getitem] in Ht. rewrite String.eqb_refl in Ht. subst tracker.
  split; [reflexivity |].
  apply getitem_read. rewrite Hst. cbn [getitem]. rewrite String.eqb_refl.
  reflexivity.
Qed.

(** X16: after weighted updates [(v_i, n_i)] of one name in a new group,
    with weights within the range of a float and a positive total weight,
    indexing the name returns the total of [v_i * n_i] divided by the
    total of [n_i]. *)
Theorem group_average_is_weighted_mean
    (name : string) (calls : list (float * Z)) (value : float) (n : Z) :
  Forall (fun c => in_float_range (snd c)) (calls ++ [(value, n)]) ->
  (0 <? weight_total (calls ++ [(value, n)]))%float = true ->
  result_of (__getitem__ name
               (run_group_updates name (calls ++ [(value, n)]) __init__)) =
  Return (weighted_total (calls ++ [(value, n)]) /
          weight_total (calls ++ [(value, n)]))%float.
Proof.
  intros Hall Hpos.
  destruct (run_group_updates_tracker name (calls ++ [(value, n)])) as [Ht _].
  rewrite <- (run_updates_avg name calls value n Hall Hpos), <- Ht.
  unfold tracker_before, __getitem__, bind, get, lift, ret.
  rewrite run_group_updates_snoc, update_single, update_entry_unfold. cbv zeta.
  cbn [state_of fst _storage]. rewrite getitem_setitem_eq. reflexivity.
Qed.

Lemma group_average_is_weighted_mean_witness :
  let calls := [(2%float, 3)] ++ [(8%float, 1)] in
  Forall (fun c => in_float_range (snd c)) calls /\
  (0 <? weight_total calls)%float = true /\
  result_of (__getitem__ "a" (run_group_updates "a" calls __init__)) =
  Return (weighted_total calls / weight_total calls)%float /\
  (weighted_total calls / weight_total calls)%float = 3.5%float.
Proof.
  cbv zeta.
  assert (Hall : Forall (fun c => in_float_range (snd c)) ([(2%float, 3)] ++ [(8%float, 1)]))
    by (repeat constructor).
  assert (Hpos : PrimFloat.ltb 0 (weight_total ([(2%float, 3)] ++ [(8%float, 1)])) = true)
    by reflexivity.
  split; [exact Hall |]. split; [exact Hpos |]. split; [| reflexivity].
  exact (group_average_is_weighted_mean "a" [(2%float, 3)] 8%float 1 Hall Hpos).
Defined.

End MoreGroupFacts.
